(** * AgentSmith: a user-agent generator

    A shallow embedding of [AgentSmith.py] and the properties of its
    loader, validator, generator and post-validator.

    Conventions of the embedding.
    - A Python [str] is a [string]; one element of the string stands for
      one character of the Python string.  The program only compares,
      concatenates, measures, searches and maps strings, all of which is
      independent of the alphabet.
    - The values that [json.load] builds are the type [pyobj].  A [dict]
      is kept as the list of its items in insertion order (the order in
      which Python iterates over it); its keys are strings, as in JSON.
    - A Python function that can raise returns a [result]; an exception
      is represented by its class.  The text of a message is not part
      of the model; that building it can raise is, since a message is
      built before its exception is raised.
    - The four calls to [random.choice] take their outcome from a record
      of four draws, one per call. *)

From Stdlib Require Import String Ascii List ZArith Bool Arith Lia PrimFloat.
Import ListNotations.
Open Scope string_scope.

(** ** Exceptions *)

(** The five classes the module defines (lines 7-25), followed by the
    built-in classes that can be raised inside its functions;
    [OtherException] stands for any further class that derives from
    Python's [Exception], as all of these do.  The module's
    [FileNotFoundError] shadows the built-in class of that name. *)
Inductive exn : Type :=
  | UserAgentError
  | InvalidJSONFormatError
  | FileNotFoundError
  | EmptyDataError
  | InvalidUserAgentError
  | PermissionError
  | JSONDecodeError
  | TypeError
  | KeyError
  | AttributeError
  | IndexError
  | OtherException (name : string).

(** [isinstance(e, UserAgentError)]. *)
Definition isinstance_UserAgentError (e : exn) : bool :=
  match e with
  | UserAgentError | InvalidJSONFormatError | FileNotFoundError
  | EmptyDataError | InvalidUserAgentError => true
  | _ => false
  end.

(** The classes that refine the base class: its strict subclasses. *)
Definition refinements : list exn :=
  [InvalidJSONFormatError; FileNotFoundError; EmptyDataError;
   InvalidUserAgentError].

Inductive result (A : Type) : Type :=
  | Ok (a : A)
  | Raise (e : exn).
Arguments Ok {A} a.
Arguments Raise {A} e.

Definition bind {A B : Type} (r : result A) (k : A -> result B) : result B :=
  match r with
  | Ok a => k a
  | Raise e => Raise e
  end.

Declare Scope py_scope.
Delimit Scope py_scope with py.
Notation "x <- r ;; k" := (bind r (fun x => k))
  (at level 61, r at next level, right associativity) : py_scope.
Notation "'ensure' c 'or_raise' e ;; k" := (if c then k else Raise e)
  (at level 61, c at next level, e at next level, right associativity) : py_scope.
Open Scope py_scope.

(** The handler shared by [load_user_agents] (lines 89-93) and
    [generate_user_agent] (lines 197-201):
    [except Exception as e: if isinstance(e, UserAgentError): raise
     else: raise UserAgentError(...)]. *)
Definition reraise (e : exn) : exn :=
  if isinstance_UserAgentError e then e else UserAgentError.

Definition try_except {A : Type} (body : result A) : result A :=
  match body with
  | Ok a => Ok a
  | Raise e => Raise (reraise e)
  end.

(** ** Strings *)

(** [s.startswith(p)]. *)
Fixpoint startswith (s p : string) {struct p} : bool :=
  match p, s with
  | EmptyString, _ => true
  | String c p', String d s' => Ascii.eqb c d && startswith s' p'
  | String _ _, EmptyString => false
  end.

(** [p in s] for two strings: [p] occurs in [s] as a substring. *)
Fixpoint str_in (p s : string) : bool :=
  startswith s p ||
  match s with
  | EmptyString => false
  | String _ s' => str_in p s'
  end.

(** [s.count(c)] for a one-character [c]. *)
Fixpoint count (s : string) (c : ascii) : nat :=
  match s with
  | EmptyString => 0
  | String d s' => (if Ascii.eqb d c then 1 else 0) + count s' c
  end.

(** [s.replace(old, new)] for one-character [old] and [new]. *)
Fixpoint replace (s : string) (old new : ascii) : string :=
  match s with
  | EmptyString => EmptyString
  | String d s' => String (if Ascii.eqb d old then new else d) (replace s' old new)
  end.

(** ** Values *)

#[warnings="-register-all"]
Inductive pyobj : Type :=
  | PyNone
  | PyBool (b : bool)
  | PyInt (n : Z)
  | PyFloat (x : float)
  | PyStr (s : string)
  | PyList (items : list pyobj)
  | PyDict (items : list (string * pyobj)).

(** Truth value of an object, as [if x], [not x] and [and] take it. *)
Definition truthy (x : pyobj) : bool :=
  match x with
  | PyNone => false
  | PyBool b => b
  | PyInt n => negb (n =? 0)%Z
  | PyFloat x => negb (PrimFloat.eqb x 0%float)
  | PyStr s => negb (s =? "")
  | PyList l => match l with [] => false | _ => true end
  | PyDict d => match d with [] => false | _ => true end
  end.

(** The binding of key [k] among the items of a dict. *)
Fixpoint lookup (k : string) (d : list (string * pyobj)) : option pyobj :=
  match d with
  | [] => None
  | (k', v) :: d' => if k' =? k then Some v else lookup k d'
  end.

(** [x.get(k)]: only a dict has the method. *)
Definition dict_get (x : pyobj) (k : string) : result pyobj :=
  match x with
  | PyDict d => match lookup k d with Some v => Ok v | None => Ok PyNone end
  | _ => Raise AttributeError
  end.

(** [x[k]] for a string [k]. *)
Definition getitem (x : pyobj) (k : string) : result pyobj :=
  match x with
  | PyDict d => match lookup k d with Some v => Ok v | None => Raise KeyError end
  | _ => Raise TypeError
  end.

Definition isinstance_list (x : pyobj) : bool :=
  match x with PyList _ => true | _ => false end.

(** The one-character strings of a string, in order. *)
Fixpoint chars (s : string) : list pyobj :=
  match s with
  | EmptyString => []
  | String c s' => PyStr (String c EmptyString) :: chars s'
  end.

(** The elements a [for] loop or a comprehension draws from [x]. *)
Definition iter (x : pyobj) : result (list pyobj) :=
  match x with
  | PyList l => Ok l
  | PyDict d => Ok (map (fun kv => PyStr (fst kv)) d)
  | PyStr s => Ok (chars s)
  | _ => Raise TypeError
  end.

(** ** [get_os_string] (lines 95-114) *)

Definition get_os_string (os_name os_version : pyobj) : result string :=
  match os_name, os_version with
  | PyStr os_name, PyStr os_version =>
      if os_name =? "Windows" then
        Ok ("Windows NT " ++ os_version ++ "; Win64; x64")
      else if os_name =? "Mac OS" then
        if str_in "_" os_version then
          Ok ("Macintosh; Intel Mac OS X " ++ os_version)
        else
          let formatted_version := replace os_version "." "_" in
          Ok ("Macintosh; Intel Mac OS X " ++ formatted_version)
      else if os_name =? "Linux" then
        Ok ("X11; Linux " ++ os_version)
      else
        Ok (os_name ++ " " ++ os_version)
  | _, _ =>
      (* [TypeError] raised at line 99, caught at line 113 *)
      Raise UserAgentError
  end.

(** ** [validate_user_agent] (lines 116-140) *)

Definition browser_patterns : list string := ["Chrome"; "Firefox"; "Safari"; "Edg"].
Definition os_patterns : list string := ["Windows"; "Mac OS X"; "Linux"; "X11"].

Definition validate_user_agent (user_agent : string) : bool :=
  if negb (startswith user_agent "Mozilla/5.0") then false
  else if negb (Nat.eqb (count user_agent "(") (count user_agent ")")) then false
  else if Nat.ltb (String.length user_agent) 30 then false
  else if negb (existsb (fun pattern => str_in pattern user_agent) browser_patterns) then false
  else if negb (existsb (fun pattern => str_in pattern user_agent) os_patterns) then false
  else true.

(** ** The outcome of [str] *)

(** What [str(x)] does for a value that is not a string: it returns a
    text, or it raises a built-in exception, given by the name of its
    class ([ValueError] for an [int] of more digits than the
    interpreter converts, [RecursionError] for a value nested too
    deeply). *)
Inductive str_outcome : Type :=
  | Text (s : string)
  | Fails (class : string).

(** ** Checks of the structure validator *)

(** A [for] loop whose body only checks: the first check that raises
    ends the loop. *)
Fixpoint for_each {A : Type} (body : A -> result unit) (l : list A) : result unit :=
  match l with
  | [] => Ok tt
  | a :: l' => _ <- body a ;; for_each body l'
  end.

(** [k in d] for a dict [d]. *)
Definition has_key (k : string) (d : list (string * pyobj)) : bool :=
  match lookup k d with Some _ => true | None => false end.

(** [isinstance(x, list) and len(x) != 0]: the tests of lines 35, 49, 53
    and 63 raise when this is false. *)
Definition nonempty_list (x : pyobj) : bool :=
  match x with PyList (_ :: _) => true | _ => false end.

Definition required_fields : list string := ["name"; "versions"; "os"].

(** ** Files *)

(** What the loader can observe of a path that exists: whether
    [os.access(path, os.R_OK)] holds, and what [open] followed by
    [json.load] gives, a value or an exception. *)
Record file : Type := {
  readable : bool;
  json_load : result pyobj
}.

(** A file system maps a path to the file it names, if there is one
    ([os.path.exists]). *)
Definition filesystem : Type := string -> option file.

(** Lines 78-82: only [json.JSONDecodeError] is turned into
    [InvalidJSONFormatError] here. *)
Definition open_and_parse (f : file) : result pyobj :=
  match json_load f with
  | Raise JSONDecodeError => Raise InvalidJSONFormatError
  | r => r
  end.

(** ** Random choice and the filters of the generator *)

(** The outcomes of the four calls to [random.choice], in the order of
    the calls.  A draw [r] on a sequence of [n] elements selects the
    element of index [r mod n], so every element can be selected and
    nothing else can. *)
Record draws : Type := {
  browser_draw : nat;
  browser_version_draw : nat;
  os_draw : nat;
  os_version_draw : nat
}.

Definition choice {A : Type} (seq : list A) (r : nat) : result A :=
  match nth_error seq (r mod List.length seq) with
  | Some a => Ok a
  | None => Raise IndexError
  end.

(** [random.choice] on an object; the generator applies it to lists
    only, the filters of lines 154 and 168 see to that. *)
Definition random_choice (seq : pyobj) (r : nat) : result pyobj :=
  match seq with
  | PyList l => choice l r
  | _ => Raise TypeError
  end.

(** A list comprehension with a condition that can raise. *)
Fixpoint comprehension (cond : pyobj -> result bool) (l : list pyobj)
  : result (list pyobj) :=
  match l with
  | [] => Ok []
  | x :: l' =>
      keep <- cond x ;;
      rest <- comprehension cond l' ;;
      Ok (if keep then x :: rest else rest)
  end.

(** The condition of line 154. *)
Definition feasible_browser (browser : pyobj) : result bool :=
  os <- dict_get browser "os" ;;
  if truthy os then
    versions <- dict_get browser "versions" ;;
    if isinstance_list versions then
      versions <- getitem browser "versions" ;;
      Ok (truthy versions)
    else Ok false
  else Ok false.

(** The condition of line 168. *)
Definition feasible_os_info (os_info : pyobj) : result bool :=
  versions <- dict_get os_info "versions" ;;
  if truthy versions then
    versions <- getitem os_info "versions" ;;
    if isinstance_list versions then
      versions <- getitem os_info "versions" ;;
      Ok (truthy versions)
    else Ok false
  else Ok false.

(** [x == s] for a string literal [s]. *)
Definition eq_str (x : pyobj) (s : string) : bool :=
  match x with PyStr t => String.eqb t s | _ => false end.

Definition is_empty {A : Type} (l : list A) : bool :=
  match l with [] => true | _ => false end.

(** ** What a run of [main] leaves behind *)

(** A line on the error stream: [Error: ...] from the first handler
    (line 220) or [Unexpected error: ...] from the second (line 223),
    each for the exception it reports. *)
Inductive report : Type :=
  | ErrorLine (e : exn)
  | UnexpectedErrorLine (e : exn).

(** What a run leaves behind: the lines printed on the two streams and
    the value [main] returns, which [sys.exit] makes the exit status.
    Writing to the streams is taken to succeed. *)
Record outcome : Type := {
  stdout : list string;
  stderr : list report;
  exit_status : Z
}.

(** Line 207: [sys.argv[1] if len(sys.argv) > 1 else 'user_agents.json']. *)
Definition json_file_argument (argv : list string) : string :=
  if Nat.ltb 1 (List.length argv) then nth 1 argv "" else "user_agents.json".

(** ** The functions of the module *)

(** They are given for a fixed behaviour of [str], which the properties
    leave arbitrary. *)
Section Interpreter.

Variable py_str : pyobj -> str_outcome.

(** [f"{x}"]: a string is inserted as it is, any other value through
    [str], which can raise. *)
Definition format_value (x : pyobj) : result string :=
  match x with
  | PyStr s => Ok s
  | _ =>
      match py_str x with
      | Text s => Ok s
      | Fails class => Raise (OtherException class)
      end
  end.

(** Evaluating [{x.get('name', f'at index {i}')}] inside the message of
    an exception, for a dict [x]: the name is formatted if there is one;
    the default is a string made of an index and always formats.  The
    text of a message is not modelled, but a message is built before the
    exception is raised, so what raises while it is built comes out in
    place of the exception. *)
Definition format_name (d : list (string * pyobj)) : result unit :=
  match lookup "name" d with
  | Some name => _ <- format_value name ;; Ok tt
  | None => Ok tt
  end.

(** *** [validate_json_structure] (lines 27-64) *)

(** Body of the inner loop, lines 57-64, for an entry of the "os" list
    of the browser [b].  The messages of lines 58 and 61 show the name
    of the browser, the one of line 64 shows the name of the OS and
    then the name of the browser. *)
Definition validate_os_info (b : list (string * pyobj)) (os_info : pyobj)
  : result unit :=
  match os_info with
  | PyDict o =>
      if has_key "name" o then
        if match lookup "versions" o with
           | Some versions => nonempty_list versions
           | None => false
           end
        then Ok tt
        else _ <- format_name o ;; _ <- format_name b ;;
             Raise InvalidJSONFormatError
      else _ <- format_name b ;; Raise InvalidJSONFormatError
  | _ => _ <- format_name b ;; Raise InvalidJSONFormatError
  end.

(** Body of the outer loop, lines 39-64.  The messages of lines 40 and
    46 show an index and a field only, those of lines 50 and 54 show
    the name of the browser. *)
Definition validate_browser (browser : pyobj) : result unit :=
  match browser with
  | PyDict b =>
      _ <- for_each (fun field =>
             ensure has_key field b or_raise InvalidJSONFormatError ;; Ok tt)
           required_fields ;;
      versions <- getitem browser "versions" ;;
      if nonempty_list versions then
        os <- getitem browser "os" ;;
        if nonempty_list os then
          os_infos <- iter os ;;
          for_each (validate_os_info b) os_infos
        else _ <- format_name b ;; Raise InvalidJSONFormatError
      else _ <- format_name b ;; Raise InvalidJSONFormatError
  | _ => Raise InvalidJSONFormatError
  end.

Definition validate_json_structure (data : pyobj) : result unit :=
  match data with
  | PyDict d =>
      match lookup "browsers" d with
      | Some browsers =>
          ensure nonempty_list browsers or_raise InvalidJSONFormatError ;;
          items <- iter browsers ;;
          for_each validate_browser items
      | None => Raise InvalidJSONFormatError
      end
  | _ => Raise InvalidJSONFormatError
  end.

(** *** [load_user_agents] (lines 66-93) *)

(** The [try] block, lines 69-87. *)
Definition load_user_agents_body (fs : filesystem) (json_file : string) : result pyobj :=
  match fs json_file with
  | None => Raise FileNotFoundError
  | Some f =>
      ensure readable f or_raise PermissionError ;;
      data <- open_and_parse f ;;
      _ <- validate_json_structure data ;;
      Ok data
  end.

Definition load_user_agents (fs : filesystem) (json_file : string) : result pyobj :=
  try_except (load_user_agents_body fs json_file).

(** *** [generate_user_agent] (lines 142-201) *)

(** Lines 145-177: the browser name, browser version, OS name and OS
    version that the draws select.  The message of line 172 shows the
    name of the browser. *)
Definition select_combination (data : pyobj) (rnd : draws)
  : result (pyobj * pyobj * pyobj * pyobj) :=
  ensure truthy data or_raise EmptyDataError ;;
  match data with
  | PyDict d =>
      ensure has_key "browsers" d or_raise EmptyDataError ;;
      browsers <- getitem data "browsers" ;;
      ensure truthy browsers or_raise EmptyDataError ;;
      items <- iter browsers ;;
      feasible_browsers <- comprehension feasible_browser items ;;
      ensure negb (is_empty feasible_browsers) or_raise EmptyDataError ;;
      browser <- choice feasible_browsers (browser_draw rnd) ;;
      browser_name <- getitem browser "name" ;;
      versions <- getitem browser "versions" ;;
      browser_version <- random_choice versions (browser_version_draw rnd) ;;
      os <- getitem browser "os" ;;
      os_infos <- iter os ;;
      feasible_os <- comprehension feasible_os_info os_infos ;;
      if is_empty feasible_os then
        _ <- format_value browser_name ;; Raise EmptyDataError
      else
        os_info <- choice feasible_os (os_draw rnd) ;;
        os_name <- getitem os_info "name" ;;
        os_versions <- getitem os_info "versions" ;;
        os_version <- random_choice os_versions (os_version_draw rnd) ;;
        Ok (browser_name, browser_version, os_name, os_version)
  | _ => Raise EmptyDataError
  end.

(** Lines 180-189: the template keyed on the browser name.  The fields
    of an f-string are evaluated from left to right. *)
Definition format_user_agent
  (browser_name browser_version os_name os_version : pyobj) : result string :=
  if eq_str browser_name "Chrome" then
    os_string <- get_os_string os_name os_version ;;
    version <- format_value browser_version ;;
    Ok ("Mozilla/5.0 (" ++ os_string
        ++ ") AppleWebKit/537.36 (KHTML, like Gecko) Chrome/"
        ++ version ++ " Safari/537.36")
  else if eq_str browser_name "Firefox" then
    os_string <- get_os_string os_name os_version ;;
    rv <- format_value browser_version ;;
    version <- format_value browser_version ;;
    Ok ("Mozilla/5.0 (" ++ os_string ++ "; rv:" ++ rv
        ++ ") Gecko/20100101 Firefox/" ++ version)
  else if eq_str browser_name "Safari" then
    os_string <- get_os_string os_name os_version ;;
    version <- format_value browser_version ;;
    Ok ("Mozilla/5.0 (" ++ os_string
        ++ ") AppleWebKit/605.1.15 (KHTML, like Gecko) Version/"
        ++ version ++ " Safari/605.1.15")
  else if eq_str browser_name "Edge" then
    os_string <- get_os_string os_name os_version ;;
    version <- format_value browser_version ;;
    Ok ("Mozilla/5.0 (" ++ os_string
        ++ ") AppleWebKit/537.36 (KHTML, like Gecko) Edg/"
        ++ version)
  else
    os_string <- get_os_string os_name os_version ;;
    name <- format_value browser_name ;;
    version <- format_value browser_version ;;
    Ok ("Mozilla/5.0 (" ++ os_string
        ++ ") AppleWebKit/537.36 (KHTML, like Gecko) "
        ++ name ++ "/" ++ version).

(** The [try] block, lines 145-195. *)
Definition generate_user_agent_body (data : pyobj) (rnd : draws) : result string :=
  selected <- select_combination data rnd ;;
  let '(browser_name, browser_version, os_name, os_version) := selected in
  user_agent <- format_user_agent browser_name browser_version os_name os_version ;;
  ensure validate_user_agent user_agent or_raise InvalidUserAgentError ;;
  Ok user_agent.

Definition generate_user_agent (data : pyobj) (rnd : draws) : result string :=
  try_except (generate_user_agent_body data rnd).

(** *** [main] (lines 203-224) *)

(** The [try] block up to the call of [print], lines 207-213. *)
Definition main_body (fs : filesystem) (argv : list string) (rnd : draws)
  : result string :=
  let json_file := json_file_argument argv in
  data <- load_user_agents fs json_file ;;
  user_agent <- generate_user_agent data rnd ;;
  Ok user_agent.

Definition main (fs : filesystem) (argv : list string) (rnd : draws) : outcome :=
  match main_body fs argv rnd with
  | Ok user_agent =>
      {| stdout := [user_agent]; stderr := []; exit_status := 0 |}
  | Raise e =>
      if isinstance_UserAgentError e then
        {| stdout := []; stderr := [ErrorLine e]; exit_status := 1 |}
      else
        {| stdout := []; stderr := [UnexpectedErrorLine e]; exit_status := 1 |}
  end.

End Interpreter.

(** ** Notions the properties are stated with *)

(** The shape [validate_json_structure] asks of an OS entry, of a
    browser entry and of the whole catalog. *)
Definition well_formed_os_info (os_info : pyobj) : Prop :=
  exists o name v vs,
    os_info = PyDict o /\ lookup "name" o = Some name
    /\ lookup "versions" o = Some (PyList (v :: vs)).

Definition well_formed_browser (browser : pyobj) : Prop :=
  exists b name v vs o os,
    browser = PyDict b /\ lookup "name" b = Some name
    /\ lookup "versions" b = Some (PyList (v :: vs))
    /\ lookup "os" b = Some (PyList (o :: os))
    /\ Forall well_formed_os_info (o :: os).

Definition well_formed_catalog (data : pyobj) : Prop :=
  exists d b bs,
    data = PyDict d /\ lookup "browsers" d = Some (PyList (b :: bs))
    /\ Forall well_formed_browser (b :: bs).

(** The built-in exceptions: those outside the module's hierarchy. *)
Definition built_in (e : exn) : Prop := isinstance_UserAgentError e = false.

(** A computation that raises nothing but exceptions in [P]. *)
Definition raises_only {A : Type} (P : exn -> Prop) (r : result A) : Prop :=
  forall e, r = Raise e -> P e.

(** An OS entry that the filter of line 168 drops: a dict whose
    "versions" is missing or is not a non-empty list. *)
Definition os_without_versions (os_info : pyobj) : Prop :=
  exists o, os_info = PyDict o
            /\ ~ (exists v vs, lookup "versions" o = Some (PyList (v :: vs))).

(** What the selection of lines 145-177 can raise. *)
Definition selection_error (e : exn) : Prop := e = EmptyDataError \/ built_in e.


(** [s] begins with [p]. *)
Definition starts_with (p s : string) : Prop := exists t, s = p ++ t.

(** [p] occurs somewhere in [s]. *)
Definition occurs (p s : string) : Prop := exists a b, s = a ++ p ++ b.

(** Parentheses that are properly nested: scanning from the left, no
    [)] closes more than is open, and nothing stays open at the end. *)
Fixpoint nested_from (depth : nat) (s : string) : bool :=
  match s with
  | EmptyString => Nat.eqb depth 0
  | String c s' =>
      if Ascii.eqb c "(" then nested_from (S depth) s'
      else if Ascii.eqb c ")" then
        match depth with
        | 0 => false
        | S d => nested_from d s'
        end
      else nested_from depth s'
  end.

Definition well_nested (s : string) : bool := nested_from 0 s.

(** The OS descriptor as the specification words it: a Mac OS version
    has its separators in underscore form, that is, every [.] is
    written [_]. *)
Definition os_string_spec (os_name os_version : string) : string :=
  if os_name =? "Windows" then "Windows NT " ++ os_version ++ "; Win64; x64"
  else if os_name =? "Mac OS" then
    "Macintosh; Intel Mac OS X " ++ replace os_version "." "_"
  else if os_name =? "Linux" then "X11; Linux " ++ os_version
  else os_name ++ " " ++ os_version.

(** The browser and OS names that have a template of their own. *)
Definition known_browsers : list string := ["Chrome"; "Firefox"; "Safari"; "Edge"].
Definition known_os : list string := ["Windows"; "Mac OS"; "Linux"].

(** What a template puts after the OS descriptor, as lines 180-189
    build it: the browser version is formatted, twice for Firefox, and
    the browser name too when it has no template of its own. *)
Definition template_tail (py_str : pyobj -> str_outcome)
  (browser_name browser_version : pyobj) : result string :=
  if eq_str browser_name "Chrome" then
    version <- format_value py_str browser_version ;;
    Ok (") AppleWebKit/537.36 (KHTML, like Gecko) Chrome/"
        ++ version ++ " Safari/537.36")
  else if eq_str browser_name "Firefox" then
    rv <- format_value py_str browser_version ;;
    version <- format_value py_str browser_version ;;
    Ok ("; rv:" ++ rv ++ ") Gecko/20100101 Firefox/" ++ version)
  else if eq_str browser_name "Safari" then
    version <- format_value py_str browser_version ;;
    Ok (") AppleWebKit/605.1.15 (KHTML, like Gecko) Version/"
        ++ version ++ " Safari/605.1.15")
  else if eq_str browser_name "Edge" then
    version <- format_value py_str browser_version ;;
    Ok (") AppleWebKit/537.36 (KHTML, like Gecko) Edg/" ++ version)
  else
    name <- format_value py_str browser_name ;;
    version <- format_value py_str browser_version ;;
    Ok (") AppleWebKit/537.36 (KHTML, like Gecko) " ++ name ++ "/" ++ version).

(** The values that the messages of [validate_json_structure] show: the
    names of the browser entries and of their OS entries. *)
Definition os_names (os : pyobj) : list pyobj :=
  match os with
  | PyList os_infos =>
      flat_map (fun os_info =>
                  match os_info with
                  | PyDict o => match lookup "name" o with Some n => [n] | None => [] end
                  | _ => []
                  end) os_infos
  | _ => []
  end.

Definition browser_names (browser : pyobj) : list pyobj :=
  match browser with
  | PyDict b =>
      match lookup "name" b with Some n => [n] | None => [] end
      ++ match lookup "os" b with Some os => os_names os | None => [] end
  | _ => []
  end.

Definition catalog_names (data : pyobj) : list pyobj :=
  match data with
  | PyDict d =>
      match lookup "browsers" d with
      | Some (PyList browsers) => flat_map browser_names browsers
      | _ => []
      end
  | _ => []
  end.

(** What [validate_json_structure] can raise on data whose names are
    [names]: its own error, or what [str] raised on one of the names
    while the message was built. *)
Definition validation_error (py_str : pyobj -> str_outcome)
  (names : list pyobj) (e : exn) : Prop :=
  e = InvalidJSONFormatError
  \/ exists x, In x names /\ format_value py_str x = Raise e.

(** A value that an f-string can show. *)
Definition formats (py_str : pyobj -> str_outcome) (x : pyobj) : Prop :=
  exists text, format_value py_str x = Ok text.

(** ** Sample data *)

(** Catalog entries as [json.load] builds them from a well-formed file. *)
Definition os_entry (name : string) (versions : list string) : pyobj :=
  PyDict [("name", PyStr name); ("versions", PyList (map PyStr versions))].

Definition browser_entry (name : string) (versions : list string) (os : list pyobj) : pyobj :=
  PyDict [("name", PyStr name); ("versions", PyList (map PyStr versions)); ("os", PyList os)].

Definition catalog (browsers : list pyobj) : pyobj :=
  PyDict [("browsers", PyList browsers)].

Definition first_draws : draws :=
  {| browser_draw := 0; browser_version_draw := 0; os_draw := 0; os_version_draw := 0 |}.

Definition chrome_catalog : pyobj :=
  catalog [browser_entry "Chrome" ["116.0"; "117.0"]
             [os_entry "Windows" ["10.0"; "11.0"]; os_entry "Mac OS" ["10_15_7"; "10.15"]]].

Definition opera_catalog : pyobj :=
  catalog [browser_entry "Opera" ["100.0"] [os_entry "FreeBSD" ["13.2"]]].

(** A string whose first parenthesis is a closing one. *)
Definition misordered_agent : string :=
  "Mozilla/5.0 )Windows NT 10.0( Chrome/116.0".

(** A file system with one file. *)
Definition single_file (path : string) (f : file) : filesystem :=
  fun p => if p =? path then Some f else None.

(** A file that exists and cannot be read. *)
Definition locked_file : file :=
  {| readable := false; json_load := Raise PermissionError |}.

(** A readable file with the given JSON value. *)
Definition json_file_of (data : pyobj) : file :=
  {| readable := true; json_load := Ok data |}.

(** A catalog whose browser has no "name". *)
Definition nameless_catalog : pyobj :=
  catalog [PyDict [("versions", PyList [PyStr "116.0"]);
                   ("os", PyList [os_entry "Windows" ["10.0"]])]].

(** A catalog whose only browser has an empty OS list. *)
Definition no_os_catalog : pyobj :=
  catalog [browser_entry "Chrome" ["116.0"] []].

(** * Properties *)

(** ** Strings *)

Lemma append_assoc (a b c : string) : (a ++ b) ++ c = a ++ b ++ c.
Proof. induction a as [|x a IH]; simpl; [reflexivity | now rewrite IH]. Qed.

Lemma length_append (a b : string) :
  String.length (a ++ b) = String.length a + String.length b.
Proof. induction a as [|x a IH]; simpl; [reflexivity | now rewrite IH]. Qed.

Lemma count_append (a b : string) (c : ascii) :
  count (a ++ b) c = count a c + count b c.
Proof. induction a as [|x a IH]; simpl; [reflexivity | rewrite IH; lia]. Qed.

Lemma count_replace (s : string) (old new c : ascii) :
  c <> old -> c <> new -> count (replace s old new) c = count s c.
Proof.
  intros Hold Hnew. induction s as [|x s IH]; simpl; [reflexivity|].
  rewrite IH. f_equal.
  destruct (Ascii.eqb_spec x old) as [->|Hx].
  - apply Ascii.eqb_neq in Hold, Hnew.
    rewrite Ascii.eqb_sym in Hold. rewrite Ascii.eqb_sym in Hnew.
    now rewrite Hold, Hnew.
  - reflexivity.
Qed.

Lemma replace_absent (s : string) (old new : ascii) :
  count s old = 0 -> replace s old new = s.
Proof.
  induction s as [|x s IH]; simpl; [reflexivity|].
  destruct (Ascii.eqb x old); [discriminate|].
  intros H. now rewrite IH.
Qed.

Lemma count_replace_old (s : string) (old new : ascii) :
  old <> new -> count (replace s old new) old = 0.
Proof.
  intros Hne. induction s as [|x s IH]; simpl; [reflexivity|].
  rewrite IH.
  destruct (Ascii.eqb_spec x old) as [->|Hx].
  - apply not_eq_sym in Hne. apply Ascii.eqb_neq in Hne. now rewrite Hne.
  - apply Ascii.eqb_neq in Hx. now rewrite Hx.
Qed.

Lemma startswith_spec (s p : string) :
  startswith s p = true <-> starts_with p s.
Proof.
  unfold starts_with. revert s.
  induction p as [|c p IH]; intros s; simpl.
  - split; [exists s; reflexivity | reflexivity].
  - destruct s as [|d s].
    + split; [discriminate | intros [t Ht]; discriminate].
    + rewrite andb_true_iff, IH. split.
      * intros [Hc [t Ht]]. apply Ascii.eqb_eq in Hc. subst. now exists t.
      * intros [t Ht]. injection Ht as -> ->.
        split; [apply Ascii.eqb_refl | now exists t].
Qed.

Lemma str_in_spec (p s : string) :
  str_in p s = true <-> occurs p s.
Proof.
  unfold occurs. induction s as [|d s IH].
  - simpl. rewrite orb_false_r, startswith_spec. split.
    + intros [t Ht]. exists "", t. exact Ht.
    + intros [a [b H]]. destruct a; [now exists b | discriminate].
  - change (str_in p (String d s)) with (startswith (String d s) p || str_in p s).
    rewrite orb_true_iff, startswith_spec, IH. split.
    + intros [[t Ht] | [a [b H]]].
      * exists "", t. exact Ht.
      * exists (String d a), b. simpl. now rewrite H.
    + intros [a [b H]]. destruct a as [|x a].
      * left. now exists b.
      * right. injection H as _ H. now exists a, b.
Qed.

Lemma str_in_append_l (p a b : string) :
  str_in p a = true -> str_in p (a ++ b) = true.
Proof.
  rewrite !str_in_spec. intros [x [y ->]].
  exists x, (y ++ b). now rewrite !append_assoc.
Qed.

Lemma str_in_append_r (p a b : string) :
  str_in p b = true -> str_in p (a ++ b) = true.
Proof.
  rewrite !str_in_spec. intros [x [y ->]].
  exists (a ++ x), y. now rewrite !append_assoc.
Qed.

(** ** The post-validator *)

(** The five tests of [validate_user_agent] as one conjunction. *)
Lemma validate_user_agent_checks (user_agent : string) :
  validate_user_agent user_agent =
    startswith user_agent "Mozilla/5.0"
    && Nat.eqb (count user_agent "(") (count user_agent ")")
    && Nat.leb 30 (String.length user_agent)
    && existsb (fun pattern => str_in pattern user_agent) browser_patterns
    && existsb (fun pattern => str_in pattern user_agent) os_patterns.
Proof.
  unfold validate_user_agent.
  destruct (startswith user_agent "Mozilla/5.0"); [|reflexivity].
  destruct (Nat.eqb (count user_agent "(") (count user_agent ")")); [|reflexivity].
  rewrite Nat.ltb_antisym.
  destruct (Nat.leb 30 (String.length user_agent)); [|reflexivity].
  destruct (existsb _ browser_patterns); [|reflexivity].
  destruct (existsb _ os_patterns); reflexivity.
Qed.

Lemma validate_user_agent_prefix (user_agent : string) :
  validate_user_agent user_agent = true -> startswith user_agent "Mozilla/5.0" = true.
Proof.
  rewrite validate_user_agent_checks, !andb_true_iff. tauto.
Qed.

Lemma any_browser_pattern (s : string) :
  existsb (fun pattern => str_in pattern s) browser_patterns = true <->
  occurs "Chrome" s \/ occurs "Firefox" s \/ occurs "Safari" s \/ occurs "Edg" s.
Proof.
  unfold browser_patterns, existsb.
  rewrite !orb_true_iff, !str_in_spec. intuition discriminate.
Qed.

Lemma any_os_pattern (s : string) :
  existsb (fun pattern => str_in pattern s) os_patterns = true <->
  occurs "Windows" s \/ occurs "Mac OS X" s \/ occurs "Linux" s \/ occurs "X11" s.
Proof.
  unfold os_patterns, existsb.
  rewrite !orb_true_iff, !str_in_spec. intuition discriminate.
Qed.

(** C6: [validate_user_agent] answers [True] exactly when its input
    starts with "Mozilla/5.0", has as many "(" as ")", is at least 30
    characters long, contains one of "Chrome", "Firefox", "Safari",
    "Edg", and contains one of "Windows", "Mac OS X", "Linux", "X11";
    it answers [False] otherwise. *)
Theorem validate_user_agent_iff (user_agent : string) :
  (validate_user_agent user_agent = true <->
     starts_with "Mozilla/5.0" user_agent
     /\ count user_agent "(" = count user_agent ")"
     /\ 30 <= String.length user_agent
     /\ (occurs "Chrome" user_agent \/ occurs "Firefox" user_agent
         \/ occurs "Safari" user_agent \/ occurs "Edg" user_agent)
     /\ (occurs "Windows" user_agent \/ occurs "Mac OS X" user_agent
         \/ occurs "Linux" user_agent \/ occurs "X11" user_agent))
  /\ (validate_user_agent user_agent = false <->
      validate_user_agent user_agent <> true).
Proof.
  split.
  - rewrite validate_user_agent_checks, !andb_true_iff.
    rewrite startswith_spec, Nat.eqb_eq, Nat.leb_le.
    rewrite any_browser_pattern, any_os_pattern. tauto.
  - destruct (validate_user_agent user_agent); split; congruence.
Qed.

(** C9: the parentheses test compares the two counts only.  The string
    [misordered_agent] has a ")" before any "(", so its parentheses are
    not nested, yet the counts agree and [validate_user_agent] accepts
    it. *)
Theorem validate_user_agent_ignores_order :
  exists before after : string,
    misordered_agent = before ++ ")" ++ after
    /\ count before "(" = 0
    /\ well_nested misordered_agent = false
    /\ count misordered_agent "(" = count misordered_agent ")"
    /\ validate_user_agent misordered_agent = true.
Proof.
  exists "Mozilla/5.0 ", "Windows NT 10.0( Chrome/116.0".
  repeat split; reflexivity.
Qed.

(** ** The OS descriptor *)

Lemma get_os_string_mac_dotted_differs :
  get_os_string (PyStr "Mac OS") (PyStr "10.15")
  <> Ok "Macintosh; Intel Mac OS X 10_15_7".
Proof. discriminate. Qed.

(** C2, amended: for the OS name "Mac OS", the version "10_15_7" gives
    "Macintosh; Intel Mac OS X 10_15_7" and the version "10.15" gives
    "Macintosh; Intel Mac OS X 10_15". *)
Theorem get_os_string_mac_versions :
  get_os_string (PyStr "Mac OS") (PyStr "10_15_7")
    = Ok "Macintosh; Intel Mac OS X 10_15_7"
  /\ get_os_string (PyStr "Mac OS") (PyStr "10.15")
    = Ok "Macintosh; Intel Mac OS X 10_15".
Proof. split; reflexivity. Qed.

Lemma get_os_string_mac_mixed_separators :
  get_os_string (PyStr "Mac OS") (PyStr "10_15.7")
    = Ok "Macintosh; Intel Mac OS X 10_15.7"
  /\ get_os_string (PyStr "Mac OS") (PyStr "10_15.7")
    <> Ok (os_string_spec "Mac OS" "10_15.7").
Proof. split; [reflexivity | discriminate]. Qed.

(** C5, amended: for all strings [os_name] and [os_version],
    "Windows" gives "Windows NT {version}; Win64; x64"; "Mac OS" gives
    "Macintosh; Intel Mac OS X {version}", where a version that contains
    "_" is left as it is and any other version has every "." written
    "_"; "Linux" gives "X11; Linux {version}"; any other name gives
    "{name} {version}".  The result is the one the specification words
    unless the name is "Mac OS" and the version has both "_" and ".". *)
Theorem get_os_string_families (os_name os_version : string) :
  (os_name = "Windows" ->
     get_os_string (PyStr os_name) (PyStr os_version)
     = Ok ("Windows NT " ++ os_version ++ "; Win64; x64"))
  /\ (os_name = "Mac OS" -> occurs "_" os_version ->
     get_os_string (PyStr os_name) (PyStr os_version)
     = Ok ("Macintosh; Intel Mac OS X " ++ os_version))
  /\ (os_name = "Mac OS" -> ~ occurs "_" os_version ->
     get_os_string (PyStr os_name) (PyStr os_version)
     = Ok ("Macintosh; Intel Mac OS X " ++ replace os_version "." "_")
     /\ count (replace os_version "." "_") "." = 0)
  /\ (os_name = "Linux" ->
     get_os_string (PyStr os_name) (PyStr os_version)
     = Ok ("X11; Linux " ++ os_version))
  /\ (os_name <> "Windows" -> os_name <> "Mac OS" -> os_name <> "Linux" ->
     get_os_string (PyStr os_name) (PyStr os_version)
     = Ok (os_name ++ " " ++ os_version))
  /\ (os_name <> "Mac OS" \/ ~ occurs "_" os_version \/ count os_version "." = 0 ->
     get_os_string (PyStr os_name) (PyStr os_version)
     = Ok (os_string_spec os_name os_version)).
Proof.
  unfold get_os_string, os_string_spec.
  split; [|split; [|split; [|split; [|split]]]].
  - intros ->. reflexivity.
  - intros -> H. apply str_in_spec in H. simpl. now rewrite H.
  - intros -> H. simpl. split.
    + destruct (str_in "_" os_version) eqn:E; [|reflexivity].
      apply str_in_spec in E. contradiction.
    + apply count_replace_old. discriminate.
  - intros ->. reflexivity.
  - intros HW HM HL.
    apply String.eqb_neq in HW, HM, HL. now rewrite HW, HM, HL.
  - intros H.
    destruct (String.eqb_spec os_name "Windows") as [->|HW]; [reflexivity|].
    destruct (String.eqb_spec os_name "Mac OS") as [->|HM];
      [|now destruct (os_name =? "Linux")].
    destruct (str_in "_" os_version) eqn:E; [|reflexivity].
    apply str_in_spec in E.
    destruct H as [H | [H | H]]; [congruence | contradiction |].
    now rewrite replace_absent.
Qed.

Lemma get_os_string_families_examples :
  get_os_string (PyStr "Windows") (PyStr "10.0") = Ok "Windows NT 10.0; Win64; x64"
  /\ get_os_string (PyStr "Mac OS") (PyStr "10_15_7") = Ok "Macintosh; Intel Mac OS X 10_15_7"
  /\ get_os_string (PyStr "Mac OS") (PyStr "10.15") = Ok "Macintosh; Intel Mac OS X 10_15"
  /\ get_os_string (PyStr "Linux") (PyStr "x86_64") = Ok "X11; Linux x86_64"
  /\ get_os_string (PyStr "FreeBSD") (PyStr "13.2") = Ok "FreeBSD 13.2"
  /\ get_os_string (PyStr "Mac OS") (PyStr "11_2") = Ok (os_string_spec "Mac OS" "11_2").
Proof.
  split; [|split; [|split; [|split; [|split]]]].
  - apply (proj1 (get_os_string_families "Windows" "10.0")). reflexivity.
  - apply (proj1 (proj2 (get_os_string_families "Mac OS" "10_15_7"))).
    + reflexivity.
    + exists "10", "15_7". reflexivity.
  - apply (proj1 (proj2 (proj2 (get_os_string_families "Mac OS" "10.15")))).
    + reflexivity.
    + intros H. apply str_in_spec in H. discriminate.
  - apply (proj1 (proj2 (proj2 (proj2 (get_os_string_families "Linux" "x86_64"))))).
    reflexivity.
  - apply (proj1 (proj2 (proj2 (proj2 (proj2 (get_os_string_families "FreeBSD" "13.2")))))).
    all: discriminate.
  - apply (proj2 (proj2 (proj2 (proj2 (proj2 (get_os_string_families "Mac OS" "11_2")))))).
    right. right. reflexivity.
Defined.

(** ** The handler *)

Lemma reraise_in_hierarchy (e : exn) : isinstance_UserAgentError (reraise e) = true.
Proof. unfold reraise. destruct (isinstance_UserAgentError e) eqn:E; [exact E | reflexivity]. Qed.

Lemma try_except_in_hierarchy {A : Type} (body : result A) (e : exn) :
  try_except body = Raise e -> isinstance_UserAgentError e = true.
Proof.
  destruct body as [a|e']; simpl; [discriminate|].
  intros [= <-]. apply reraise_in_hierarchy.
Qed.

Lemma hierarchy_classes (e : exn) :
  isinstance_UserAgentError e = true <-> e = UserAgentError \/ In e refinements.
Proof.
  unfold refinements. simpl. split.
  - destruct e; simpl; intros H; try discriminate; tauto.
  - intros [-> | [<- | [<- | [<- | [<- | []]]]]]; reflexivity.
Qed.

(** ** The loader *)

Lemma load_unreadable_not_refinement :
  load_user_agents (fun _ => Text "") (single_file "user_agents.json" locked_file) "user_agents.json"
    = Raise UserAgentError
  /\ ~ In UserAgentError refinements
  /\ isinstance_UserAgentError PermissionError = false.
Proof.
  split; [reflexivity | split; [|reflexivity]].
  unfold refinements. simpl. intuition discriminate.
Qed.

(** C3, amended: when the file exists and is not readable, the [try]
    block raises the built-in [PermissionError], which is outside the
    hierarchy, and loading fails with the generic [UserAgentError]
    itself.  The hierarchy is the generic error and four refinements:
    malformed-format, file-not-found, empty-data and
    invalid-generated-output. *)
Theorem load_user_agents_unreadable (py_str : pyobj -> str_outcome) (fs : filesystem) (json_file : string) (f : file) :
  fs json_file = Some f -> readable f = false ->
  load_user_agents_body py_str fs json_file = Raise PermissionError
  /\ load_user_agents py_str fs json_file = Raise UserAgentError
  /\ isinstance_UserAgentError PermissionError = false
  /\ (forall e, isinstance_UserAgentError e = true <->
        e = UserAgentError \/ In e refinements).
Proof.
  intros Hf Hr.
  assert (Hbody : load_user_agents_body py_str fs json_file = Raise PermissionError).
  { unfold load_user_agents_body. now rewrite Hf, Hr. }
  split; [exact Hbody | split; [|split; [reflexivity | apply hierarchy_classes]]].
  unfold load_user_agents. now rewrite Hbody.
Qed.

Lemma load_user_agents_unreadable_example :
  load_user_agents_body (fun _ => Text "") (single_file "user_agents.json" locked_file) "user_agents.json"
    = Raise PermissionError
  /\ load_user_agents (fun _ => Text "") (single_file "user_agents.json" locked_file) "user_agents.json"
    = Raise UserAgentError.
Proof.
  pose proof (load_user_agents_unreadable (fun _ => Text "")
                (single_file "user_agents.json" locked_file) "user_agents.json"
                locked_file eq_refl eq_refl) as H.
  split; [exact (proj1 H) | exact (proj1 (proj2 H))].
Defined.

(** C8: loading a catalog whose top-level mapping has no "browsers" key,
    or whose "browsers" is the empty list, fails with
    [InvalidJSONFormatError], the malformed-format refinement of the
    generic error. *)
Theorem load_user_agents_malformed (py_str : pyobj -> str_outcome)
  (fs : filesystem) (json_file : string) (f : file) (d : list (string * pyobj)) :
  fs json_file = Some f -> readable f = true -> json_load f = Ok (PyDict d) ->
  lookup "browsers" d = None \/ lookup "browsers" d = Some (PyList []) ->
  load_user_agents py_str fs json_file = Raise InvalidJSONFormatError
  /\ In InvalidJSONFormatError refinements.
Proof.
  intros Hf Hr Hj Hb. split; [|now left].
  unfold load_user_agents, load_user_agents_body, open_and_parse.
  rewrite Hf, Hr, Hj. simpl.
  destruct Hb as [-> | ->]; reflexivity.
Qed.

Lemma load_user_agents_malformed_examples :
  (load_user_agents (fun _ => Text "") (single_file "ua.json" (json_file_of (PyDict [("agents", PyList [])]))) "ua.json"
     = Raise InvalidJSONFormatError
   /\ In InvalidJSONFormatError refinements)
  /\ (load_user_agents (fun _ => Text "") (single_file "ua.json" (json_file_of (catalog []))) "ua.json"
     = Raise InvalidJSONFormatError
   /\ In InvalidJSONFormatError refinements).
Proof.
  split.
  - apply (load_user_agents_malformed _ _ _ (json_file_of (PyDict [("agents", PyList [])]))
             [("agents", PyList [])]); try reflexivity.
    left. reflexivity.
  - apply (load_user_agents_malformed _ _ _ (json_file_of (catalog []))
             [("browsers", PyList [])]); try reflexivity.
    right. reflexivity.
Defined.

(** ** The generator *)

Lemma lookup_nonempty (k : string) (d : list (string * pyobj)) (v : pyobj) :
  lookup k d = Some v -> truthy (PyDict d) = true.
Proof. destruct d; [discriminate | reflexivity]. Qed.

(** C7: for a catalog whose "browsers" list holds exactly one browser,
    whose "os" list is empty, generation fails with [EmptyDataError]
    whatever the draws: the browser is filtered out and no feasible
    browser is left. *)
Theorem generate_user_agent_empty_os
  (py_str : pyobj -> str_outcome) (d b : list (string * pyobj)) (rnd : draws) :
  lookup "browsers" d = Some (PyList [PyDict b]) ->
  lookup "os" b = Some (PyList []) ->
  comprehension feasible_browser [PyDict b] = Ok []
  /\ generate_user_agent py_str (PyDict d) rnd = Raise EmptyDataError.
Proof.
  intros Hd Hb.
  assert (Hf : comprehension feasible_browser [PyDict b] = Ok []).
  { simpl. unfold feasible_browser. simpl. now rewrite Hb. }
  split; [exact Hf|].
  unfold generate_user_agent, generate_user_agent_body, select_combination.
  rewrite (lookup_nonempty _ _ _ Hd).
  unfold has_key, getitem. rewrite Hd.
  cbn [bind truthy iter]. rewrite Hf. reflexivity.
Qed.

Lemma generate_user_agent_empty_os_example :
  comprehension feasible_browser [browser_entry "Chrome" ["116.0"] []] = Ok []
  /\ generate_user_agent (fun _ => Text "") no_os_catalog first_draws = Raise EmptyDataError.
Proof.
  apply (generate_user_agent_empty_os (fun _ => Text "")
           [("browsers", PyList [browser_entry "Chrome" ["116.0"] []])]
           [("name", PyStr "Chrome"); ("versions", PyList [PyStr "116.0"]);
            ("os", PyList [])]
           first_draws); reflexivity.
Defined.

(** C4: when the draws select the browser "Chrome", the browser version
    "116.0", the OS "Windows" and the OS version "10.0", the result is
    exactly "Mozilla/5.0 (Windows NT 10.0; Win64; x64) AppleWebKit/537.36
    (KHTML, like Gecko) Chrome/116.0 Safari/537.36". *)
Theorem generate_user_agent_chrome_windows
  (py_str : pyobj -> str_outcome) (data : pyobj) (rnd : draws) :
  select_combination py_str data rnd
    = Ok (PyStr "Chrome", PyStr "116.0", PyStr "Windows", PyStr "10.0") ->
  generate_user_agent py_str data rnd
    = Ok "Mozilla/5.0 (Windows NT 10.0; Win64; x64) AppleWebKit/537.36 (KHTML, like Gecko) Chrome/116.0 Safari/537.36".
Proof.
  intros H. unfold generate_user_agent, generate_user_agent_body.
  rewrite H. reflexivity.
Qed.

Lemma generate_user_agent_chrome_windows_example :
  generate_user_agent (fun _ => Text "") chrome_catalog first_draws
    = Ok "Mozilla/5.0 (Windows NT 10.0; Win64; x64) AppleWebKit/537.36 (KHTML, like Gecko) Chrome/116.0 Safari/537.36".
Proof.
  apply (generate_user_agent_chrome_windows (fun _ => Text "") chrome_catalog first_draws).
  reflexivity.
Defined.

(** C10: an error that leaves [load_user_agents] or
    [generate_user_agent] is in the [UserAgentError] hierarchy.  An
    exception of the [try] block that is outside the hierarchy comes
    out as the generic [UserAgentError]; one that is inside comes out
    as it is. *)
Theorem errors_in_hierarchy :
  (forall py_str fs json_file e,
     load_user_agents py_str fs json_file = Raise e ->
     isinstance_UserAgentError e = true)
  /\ (forall py_str data rnd e,
     generate_user_agent py_str data rnd = Raise e ->
     isinstance_UserAgentError e = true)
  /\ (forall py_str fs json_file e,
     load_user_agents_body py_str fs json_file = Raise e ->
     load_user_agents py_str fs json_file
     = Raise (if isinstance_UserAgentError e then e else UserAgentError))
  /\ (forall py_str data rnd e,
     generate_user_agent_body py_str data rnd = Raise e ->
     generate_user_agent py_str data rnd
     = Raise (if isinstance_UserAgentError e then e else UserAgentError)).
Proof.
  split; [|split; [|split]].
  - intros py_str fs json_file e. apply try_except_in_hierarchy.
  - intros py_str data rnd e. apply try_except_in_hierarchy.
  - intros py_str fs json_file e H. unfold load_user_agents. now rewrite H.
  - intros py_str data rnd e H. unfold generate_user_agent. now rewrite H.
Qed.

Lemma errors_in_hierarchy_examples :
  isinstance_UserAgentError UserAgentError = true
  /\ isinstance_UserAgentError EmptyDataError = true
  /\ load_user_agents (fun _ => Text "") (single_file "user_agents.json" locked_file) "user_agents.json"
     = Raise UserAgentError
  /\ generate_user_agent (fun _ => Text "") nameless_catalog first_draws
     = Raise UserAgentError.
Proof.
  destruct errors_in_hierarchy as [Hload [Hgen [Hload_body Hgen_body]]].
  split; [|split; [|split]].
  - apply (Hload (fun _ => Text "") (single_file "user_agents.json" locked_file)
             "user_agents.json").
    reflexivity.
  - apply (Hgen (fun _ => Text "") no_os_catalog first_draws). reflexivity.
  - apply (Hload_body (fun _ => Text "") (single_file "user_agents.json" locked_file)
             "user_agents.json" PermissionError).
    reflexivity.
  - apply (Hgen_body (fun _ => Text "") nameless_catalog first_draws KeyError).
    reflexivity.
Defined.

(** *** Catalogs that pass [validate_json_structure] *)

Lemma for_each_ok {A : Type} (body : A -> result unit) (l : list A) :
  for_each body l = Ok tt -> Forall (fun a => body a = Ok tt) l.
Proof.
  induction l as [|a l IH]; simpl; intros H; [constructor|].
  destruct (body a) as [[]|e] eqn:E; simpl in H; [|discriminate].
  constructor; [exact E | now apply IH].
Qed.

Lemma comprehension_keeps_all (cond : pyobj -> result bool) (l : list pyobj) :
  Forall (fun x => cond x = Ok true) l -> comprehension cond l = Ok l.
Proof.
  induction 1 as [|x l Hx _ IH]; simpl; [reflexivity|].
  now rewrite Hx, IH.
Qed.

Lemma choice_nonempty {A : Type} (a : A) (l : list A) (r : nat) :
  exists x, choice (a :: l) r = Ok x /\ In x (a :: l).
Proof.
  unfold choice.
  destruct (nth_error (a :: l) (r mod List.length (a :: l))) as [x|] eqn:E.
  - exists x. split; [reflexivity | now apply nth_error_In in E].
  - apply nth_error_None in E.
    pose proof (Nat.mod_upper_bound r (List.length (a :: l))) as Hlt.
    simpl in *. lia.
Qed.

Lemma nonempty_list_inv (x : pyobj) :
  nonempty_list x = true -> exists a l, x = PyList (a :: l).
Proof.
  destruct x as [| | | | |[|a l]|]; try discriminate. intros _. now exists a, l.
Qed.

Lemma validate_os_info_inv (py_str : pyobj -> str_outcome)
  (b : list (string * pyobj)) (os_info : pyobj) :
  validate_os_info py_str b os_info = Ok tt ->
  exists o name v vs,
    os_info = PyDict o /\ lookup "name" o = Some name
    /\ lookup "versions" o = Some (PyList (v :: vs)).
Proof.
  unfold validate_os_info.
  destruct os_info as [| | | | | |o];
    try (destruct (format_name py_str b); discriminate).
  unfold has_key.
  destruct (lookup "name" o) as [name|] eqn:En;
    [|destruct (format_name py_str b); discriminate].
  destruct (lookup "versions" o) as [versions|] eqn:Ev.
  - destruct (nonempty_list versions) eqn:E.
    + intros _. apply nonempty_list_inv in E as [v [vs ->]].
      now exists o, name, v, vs.
    + destruct (format_name py_str o) as [[]|]; [|discriminate].
      destruct (format_name py_str b); discriminate.
  - destruct (format_name py_str o) as [[]|]; [|discriminate].
    destruct (format_name py_str b); discriminate.
Qed.

Lemma validate_browser_inv (py_str : pyobj -> str_outcome) (browser : pyobj) :
  validate_browser py_str browser = Ok tt ->
  exists b name v vs o os,
    browser = PyDict b /\ lookup "name" b = Some name
    /\ lookup "versions" b = Some (PyList (v :: vs))
    /\ lookup "os" b = Some (PyList (o :: os))
    /\ Forall (fun x => validate_os_info py_str b x = Ok tt) (o :: os).
Proof.
  destruct browser as [| | | | | |b]; try discriminate.
  unfold validate_browser, required_fields, has_key, getitem. simpl.
  destruct (lookup "name" b) as [name|] eqn:Hn; [|discriminate].
  destruct (lookup "versions" b) as [versions|] eqn:Hv; [|discriminate].
  destruct (lookup "os" b) as [os|] eqn:Ho; [|discriminate]. simpl.
  destruct (nonempty_list versions) eqn:Ev;
    [|destruct (format_name py_str b); discriminate].
  simpl.
  destruct (nonempty_list os) eqn:Eo;
    [|destruct (format_name py_str b); discriminate].
  apply nonempty_list_inv in Ev as [v [vs ->]].
  apply nonempty_list_inv in Eo as [o [os' ->]].
  intros H. apply for_each_ok in H.
  now exists b, name, v, vs, o, os'.
Qed.

Lemma validate_json_structure_inv (py_str : pyobj -> str_outcome) (data : pyobj) :
  validate_json_structure py_str data = Ok tt ->
  exists d b bs,
    data = PyDict d /\ lookup "browsers" d = Some (PyList (b :: bs))
    /\ Forall (fun x => validate_browser py_str x = Ok tt) (b :: bs).
Proof.
  destruct data as [| | | | | |d]; try discriminate.
  unfold validate_json_structure.
  destruct (lookup "browsers" d) as [browsers|] eqn:Hb; [|discriminate].
  destruct (nonempty_list browsers) eqn:E; [|discriminate].
  apply nonempty_list_inv in E as [b [bs ->]].
  intros H. apply for_each_ok in H.
  now exists d, b, bs.
Qed.

Lemma validated_os_info_feasible (py_str : pyobj -> str_outcome)
  (b : list (string * pyobj)) (os_info : pyobj) :
  validate_os_info py_str b os_info = Ok tt -> feasible_os_info os_info = Ok true.
Proof.
  intros H. apply validate_os_info_inv in H as [o [name [v [vs [-> [_ Hv]]]]]].
  unfold feasible_os_info, dict_get, getitem. now rewrite Hv.
Qed.

Lemma validated_browser_feasible (py_str : pyobj -> str_outcome) (browser : pyobj) :
  validate_browser py_str browser = Ok tt -> feasible_browser browser = Ok true.
Proof.
  intros H.
  apply validate_browser_inv in H as [b [name [v [vs [o [os [-> [_ [Hv [Ho _]]]]]]]]]].
  unfold feasible_browser, dict_get, getitem. now rewrite Ho, Hv.
Qed.

(** What the filters of lines 154 and 168 keep has a non-empty list of
    versions, so [random.choice] is applied to non-empty lists only. *)
Lemma feasible_browser_versions (browser : pyobj) :
  feasible_browser browser = Ok true ->
  exists v vs, getitem browser "versions" = Ok (PyList (v :: vs)).
Proof.
  destruct browser as [| | | | | |b]; try discriminate.
  unfold feasible_browser, dict_get, getitem.
  destruct (lookup "os" b) as [os|]; cbn [bind truthy]; [|discriminate].
  destruct (truthy os); [|discriminate].
  destruct (lookup "versions" b) as [versions|]; cbn [bind isinstance_list];
    [|discriminate].
  destruct versions as [| | | | |[|v vs]|]; try discriminate.
  intros _. now exists v, vs.
Qed.

Lemma feasible_os_info_versions (os_info : pyobj) :
  feasible_os_info os_info = Ok true ->
  exists v vs, getitem os_info "versions" = Ok (PyList (v :: vs)).
Proof.
  destruct os_info as [| | | | | |o]; try discriminate.
  unfold feasible_os_info, dict_get, getitem.
  destruct (lookup "versions" o) as [versions|]; cbn [bind truthy]; [|discriminate].
  destruct versions as [| | | | |[|v vs]|]; cbn [bind truthy isinstance_list];
    try discriminate.
  - destruct b; discriminate.
  - destruct (negb (n =? 0)%Z); discriminate.
  - destruct (negb (PrimFloat.eqb x 0)); discriminate.
  - destruct (negb (s =? "")); discriminate.
  - intros _. now exists v, vs.
  - destruct items; discriminate.
Qed.

(** On a validated catalog nothing is filtered out and every step of the
    selection succeeds. *)
Lemma select_combination_validated (py_str : pyobj -> str_outcome) (data : pyobj) (rnd : draws) :
  validate_json_structure py_str data = Ok tt ->
  exists browser_name browser_version os_name os_version,
    select_combination py_str data rnd
    = Ok (browser_name, browser_version, os_name, os_version).
Proof.
  intros H.
  apply validate_json_structure_inv in H as [d [b [bs [-> [Hd Hall]]]]].
  unfold select_combination.
  rewrite (lookup_nonempty _ _ _ Hd).
  unfold has_key. cbn [getitem]. rewrite Hd. cbn [bind truthy iter].
  rewrite (comprehension_keeps_all feasible_browser (b :: bs)).
  2:{ eapply Forall_impl; [|exact Hall]. apply validated_browser_feasible. }
  cbn [is_empty negb bind].
  destruct (choice_nonempty b bs (browser_draw rnd)) as [browser [-> Hin]].
  rewrite Forall_forall in Hall. apply Hall in Hin.
  apply validate_browser_inv in Hin
    as [bd [name [v [vs [o [os [-> [Hname [Hv [Ho Hos]]]]]]]]]].
  cbn [bind getitem]. rewrite Hname, Hv, Ho. cbn [bind random_choice iter].
  destruct (choice_nonempty v vs (browser_version_draw rnd)) as [bv [-> _]].
  cbn [bind].
  rewrite (comprehension_keeps_all feasible_os_info (o :: os)).
  2:{ eapply Forall_impl; [|exact Hos]. apply validated_os_info_feasible. }
  cbn [is_empty negb bind].
  destruct (choice_nonempty o os (os_draw rnd)) as [os_info [-> Hin]].
  rewrite Forall_forall in Hos. apply Hos in Hin.
  apply validate_os_info_inv in Hin as [od [oname [ov [ovs [-> [Honame Hov]]]]]].
  cbn [bind getitem]. rewrite Honame, Hov. cbn [bind random_choice].
  destruct (choice_nonempty ov ovs (os_version_draw rnd)) as [over [-> _]].
  cbn [bind]. now exists name, bv, oname, over.
Qed.

(** *** The templates *)

Lemma any_pattern_append_l (ps : list string) (a b : string) :
  existsb (fun pattern => str_in pattern a) ps = true ->
  existsb (fun pattern => str_in pattern (a ++ b)) ps = true.
Proof.
  rewrite !existsb_exists. intros [p [Hin Hp]].
  exists p. split; [exact Hin | now apply str_in_append_l].
Qed.

Lemma any_pattern_append_r (ps : list string) (a b : string) :
  existsb (fun pattern => str_in pattern b) ps = true ->
  existsb (fun pattern => str_in pattern (a ++ b)) ps = true.
Proof.
  rewrite !existsb_exists. intros [p [Hin Hp]].
  exists p. split; [exact Hin | now apply str_in_append_r].
Qed.

Lemma format_value_raises (py_str : pyobj -> str_outcome) (x : pyobj) (e : exn) :
  format_value py_str x = Raise e -> exists class, e = OtherException class.
Proof.
  unfold format_value. destruct x; try discriminate;
    (destruct (py_str _) as [s|class]; [discriminate | intros [= <-]; eauto]).
Qed.

Lemma format_user_agent_tail (py_str : pyobj -> str_outcome)
  (browser_name browser_version os_name os_version : pyobj) :
  format_user_agent py_str browser_name browser_version os_name os_version
  = (os_string <- get_os_string os_name os_version ;;
     tail <- template_tail py_str browser_name browser_version ;;
     Ok ("Mozilla/5.0 (" ++ os_string ++ tail)).
Proof.
  unfold format_user_agent, template_tail.
  destruct (get_os_string os_name os_version) as [os_string|e];
    [|now repeat destruct (eq_str browser_name _)].
  cbn [bind].
  destruct (eq_str browser_name "Chrome");
    [|destruct (eq_str browser_name "Firefox");
      [|destruct (eq_str browser_name "Safari");
        [|destruct (eq_str browser_name "Edge")]]];
    try (destruct (format_value py_str browser_name) as [name|]; cbn [bind];
         [|reflexivity]);
    (destruct (format_value py_str browser_version) as [version|]; cbn [bind];
     reflexivity).
Qed.

Lemma template_tail_raises (py_str : pyobj -> str_outcome)
  (browser_name browser_version : pyobj) (e : exn) :
  template_tail py_str browser_name browser_version = Raise e ->
  (exists class, e = OtherException class)
  /\ (format_value py_str browser_version = Raise e
      \/ format_value py_str browser_name = Raise e).
Proof.
  unfold template_tail.
  destruct (eq_str browser_name "Chrome");
    [|destruct (eq_str browser_name "Firefox");
      [|destruct (eq_str browser_name "Safari");
        [|destruct (eq_str browser_name "Edge")]]];
    try (destruct (format_value py_str browser_name) as [name|e'] eqn:En;
         cbn [bind];
         [|intros [= <-]; split; [now apply format_value_raises in En | now right]]);
    (destruct (format_value py_str browser_version) as [version|e'] eqn:Ev;
     cbn [bind];
     [discriminate
     |intros [= <-]; split; [now apply format_value_raises in Ev | now left]]).
Qed.

(** What is enough of the OS descriptor and of the rest of a template
    for the whole string to pass the post-validator. *)
Lemma validate_template (os_string tail : string) :
  count os_string "(" = count os_string ")" ->
  count tail "(" + 1 = count tail ")" ->
  17 <= String.length tail ->
  existsb (fun pattern => str_in pattern tail) browser_patterns = true ->
  existsb (fun pattern => str_in pattern os_string) os_patterns = true ->
  validate_user_agent ("Mozilla/5.0 (" ++ os_string ++ tail) = true.
Proof.
  intros Hos Htail Hlen Hb Ho.
  rewrite validate_user_agent_checks, !andb_true_iff.
  split; [split; [split; [split|]|]|].
  - reflexivity.
  - apply Nat.eqb_eq. rewrite !count_append. simpl. lia.
  - apply Nat.leb_le. rewrite !length_append. simpl. lia.
  - now apply any_pattern_append_r, any_pattern_append_r.
  - now apply any_pattern_append_r, any_pattern_append_l.
Qed.

Lemma known_template_tail (py_str : pyobj -> str_outcome)
  (name : string) (browser_version : pyobj) (text : string) :
  In name known_browsers ->
  format_value py_str browser_version = Ok text ->
  count text "(" = count text ")" ->
  exists tail,
    template_tail py_str (PyStr name) browser_version = Ok tail
    /\ count tail "(" + 1 = count tail ")"
    /\ 17 <= String.length tail
    /\ existsb (fun pattern => str_in pattern tail) browser_patterns = true.
Proof.
  intros Hin Htext Hv.
  destruct Hin as [<- | [<- | [<- | [<- | []]]]];
    unfold template_tail; simpl eq_str; cbv iota; rewrite Htext; cbn [bind];
    (eexists; split; [reflexivity | split; [|split]]).
  - rewrite !count_append. simpl. lia.
  - rewrite !length_append. simpl. lia.
  - apply any_pattern_append_l. reflexivity.
  - rewrite !count_append. simpl. lia.
  - rewrite !length_append. simpl. lia.
  - apply any_pattern_append_r, any_pattern_append_r, any_pattern_append_l.
    reflexivity.
  - rewrite !count_append. simpl. lia.
  - rewrite !length_append. simpl. lia.
  - apply any_pattern_append_r, any_pattern_append_r. reflexivity.
  - rewrite !count_append. simpl. lia.
  - rewrite !length_append. simpl. lia.
  - apply any_pattern_append_l. reflexivity.
Qed.

Lemma known_os_string (name version : string) :
  In name known_os ->
  exists os_string,
    get_os_string (PyStr name) (PyStr version) = Ok os_string
    /\ count os_string "(" = count version "("
    /\ count os_string ")" = count version ")"
    /\ existsb (fun pattern => str_in pattern os_string) os_patterns = true.
Proof.
  intros [<- | [<- | [<- | []]]]; unfold get_os_string; simpl String.eqb; cbv iota;
    try destruct (str_in "_" version);
    (eexists; split; [reflexivity | split; [|split]]);
    try (rewrite !count_append; simpl; rewrite ?count_replace by discriminate; lia);
    apply any_pattern_append_l; reflexivity.
Qed.

Lemma get_os_string_raises (os_name os_version : pyobj) (e : exn) :
  get_os_string os_name os_version = Raise e -> e = UserAgentError.
Proof.
  unfold get_os_string.
  destruct os_name as [| | | |n| |]; try (now intros [= <-]).
  destruct os_version as [| | | |v| |]; try (now intros [= <-]).
  destruct (n =? "Windows"); [discriminate|].
  destruct (n =? "Mac OS"); [destruct (str_in "_" v); discriminate|].
  destruct (n =? "Linux"); discriminate.
Qed.

Lemma get_os_string_strings (os_name os_version : string) :
  exists os_string, get_os_string (PyStr os_name) (PyStr os_version) = Ok os_string.
Proof.
  unfold get_os_string.
  destruct (os_name =? "Windows"); [eauto|].
  destruct (os_name =? "Mac OS"); [destruct (str_in "_" os_version); eauto|].
  destruct (os_name =? "Linux"); eauto.
Qed.

(** What [generate_user_agent] returns once the combination is
    selected. *)
Lemma generate_user_agent_selected (py_str : pyobj -> str_outcome) (data : pyobj)
  (rnd : draws) (browser_name browser_version os_name os_version : pyobj) :
  select_combination py_str data rnd
    = Ok (browser_name, browser_version, os_name, os_version) ->
  generate_user_agent py_str data rnd
  = match get_os_string os_name os_version with
    | Ok os_string =>
        match template_tail py_str browser_name browser_version with
        | Ok tail =>
            let user_agent := "Mozilla/5.0 (" ++ os_string ++ tail in
            if validate_user_agent user_agent then Ok user_agent
            else Raise InvalidUserAgentError
        | Raise _ => Raise UserAgentError
        end
    | Raise _ => Raise UserAgentError
    end.
Proof.
  intros H. unfold generate_user_agent, generate_user_agent_body.
  rewrite H. cbn [bind]. rewrite format_user_agent_tail.
  destruct (get_os_string os_name os_version) as [os_string|e] eqn:E; cbn [bind].
  - destruct (template_tail py_str browser_name browser_version) as [tail|e] eqn:Et;
      cbn [bind].
    + cbv zeta. now destruct (validate_user_agent _).
    + apply template_tail_raises in Et as [[class ->] _]. reflexivity.
  - apply get_os_string_raises in E. now subst.
Qed.

(** *** Generation from a validated catalog *)

Lemma choice_singleton {A : Type} (a : A) (r : nat) : choice [a] r = Ok a.
Proof. unfold choice. simpl List.length. now rewrite Nat.mod_1_r. Qed.

Lemma select_combination_opera (py_str : pyobj -> str_outcome) (rnd : draws) :
  select_combination py_str opera_catalog rnd
  = Ok (PyStr "Opera", PyStr "100.0", PyStr "FreeBSD", PyStr "13.2").
Proof.
  unfold select_combination, opera_catalog, catalog, browser_entry, os_entry.
  cbn -[choice]. rewrite !choice_singleton. cbn -[choice].
  rewrite !choice_singleton. cbn -[choice]. rewrite !choice_singleton.
  reflexivity.
Qed.

Lemma generate_user_agent_opera_invalid :
  (forall py_str : pyobj -> str_outcome,
     validate_json_structure py_str opera_catalog = Ok tt)
  /\ (forall (py_str : pyobj -> str_outcome) (rnd : draws),
        generate_user_agent py_str opera_catalog rnd = Raise InvalidUserAgentError).
Proof.
  split; [reflexivity|].
  intros py_str rnd.
  rewrite (generate_user_agent_selected py_str _ _ _ _ _ _
             (select_combination_opera py_str rnd)).
  reflexivity.
Qed.

(** C1, amended: for every catalog that passes
    [validate_json_structure] and for all draws, a combination is
    selected, and [generate_user_agent] either returns a string or fails
    with [InvalidUserAgentError] or with the generic [UserAgentError],
    the latter only when the OS name or the OS version is not a string
    or when [str] raises on the browser version or the browser name.
    A returned string starts with "Mozilla/5.0" and passes
    [validate_user_agent].  A string is returned whenever the selected
    browser name is one of "Chrome", "Firefox", "Safari", "Edge", the OS
    name is one of "Windows", "Mac OS", "Linux", the OS version is a
    string, the browser version formats to a text, and "(" and ")" are
    equally many in the OS version and in that text. *)
Theorem generate_user_agent_validated
  (py_str : pyobj -> str_outcome) (data : pyobj) (rnd : draws) :
  validate_json_structure py_str data = Ok tt ->
  exists browser_name browser_version os_name os_version : pyobj,
    select_combination py_str data rnd
      = Ok (browser_name, browser_version, os_name, os_version)
    /\ (forall user_agent,
          generate_user_agent py_str data rnd = Ok user_agent ->
          starts_with "Mozilla/5.0" user_agent
          /\ validate_user_agent user_agent = true)
    /\ ((exists user_agent, generate_user_agent py_str data rnd = Ok user_agent)
        \/ generate_user_agent py_str data rnd = Raise InvalidUserAgentError
        \/ generate_user_agent py_str data rnd = Raise UserAgentError)
    /\ (generate_user_agent py_str data rnd = Raise UserAgentError ->
        (forall o v : string, ~ (os_name = PyStr o /\ os_version = PyStr v))
        \/ ~ formats py_str browser_version
        \/ ~ formats py_str browser_name)
    /\ (forall b o v text : string,
          browser_name = PyStr b -> In b known_browsers ->
          os_name = PyStr o -> In o known_os ->
          os_version = PyStr v -> count v "(" = count v ")" ->
          format_value py_str browser_version = Ok text ->
          count text "(" = count text ")" ->
          exists user_agent, generate_user_agent py_str data rnd = Ok user_agent).
Proof.
  intros Hvalid.
  destruct (select_combination_validated py_str data rnd Hvalid)
    as [bn [bv [on [ov Hsel]]]].
  exists bn, bv, on, ov. split; [exact Hsel|].
  pose proof (generate_user_agent_selected py_str _ _ _ _ _ _ Hsel) as Hgen.
  split; [|split; [|split]].
  - intros ua Hua. rewrite Hua in Hgen.
    destruct (get_os_string on ov) as [os_string|e]; [|discriminate].
    destruct (template_tail py_str bn bv) as [tail|e]; [|discriminate].
    cbv zeta in Hgen.
    destruct (validate_user_agent _) eqn:Hv; [|discriminate].
    injection Hgen as ->.
    split; [|exact Hv].
    apply startswith_spec, validate_user_agent_prefix, Hv.
  - rewrite Hgen.
    destruct (get_os_string on ov) as [os_string|e]; [|now right; right].
    destruct (template_tail py_str bn bv) as [tail|e]; [|now right; right].
    cbv zeta. destruct (validate_user_agent _); [left; eauto | now right; left].
  - intros Herr. rewrite Hgen in Herr.
    destruct (get_os_string on ov) as [os_string|e] eqn:Hos.
    + right.
      destruct (template_tail py_str bn bv) as [tail|e] eqn:Ht.
      * cbv zeta in Herr. destruct (validate_user_agent _); discriminate.
      * apply template_tail_raises in Ht as [_ [Ht | Ht]];
          [left | right]; intros [text Htext]; congruence.
    + left. intros o v [-> ->].
      destruct (get_os_string_strings o v) as [os_string Hs]. congruence.
  - intros b o v text -> Hb -> Ho -> Hov Htext Hbv.
    destruct (known_os_string o v Ho) as [os_string [Hos [Hopen [Hclose Hpat]]]].
    destruct (known_template_tail py_str b bv text Hb Htext Hbv)
      as [tail [Htail [Hcount [Hlen Hbrowser]]]].
    rewrite Hgen, Hos, Htail. cbv zeta.
    rewrite validate_template; eauto. lia.
Qed.

Lemma generate_user_agent_validated_example :
  exists user_agent,
    generate_user_agent (fun _ => Text "") chrome_catalog first_draws = Ok user_agent
    /\ starts_with "Mozilla/5.0" user_agent
    /\ validate_user_agent user_agent = true.
Proof.
  destruct (generate_user_agent_validated (fun _ => Text "") chrome_catalog
              first_draws eq_refl)
    as [bn [bv [on [ov [Hsel [Hok [_ [_ Hknown]]]]]]]].
  injection Hsel as <- <- <- <-.
  destruct (Hknown "Chrome" "Windows" "10.0" "116.0" eq_refl (or_introl eq_refl)
              eq_refl (or_introl eq_refl) eq_refl eq_refl eq_refl eq_refl)
    as [ua Hua].
  exists ua. split; [exact Hua | apply Hok, Hua].
Defined.

(** *** The generator on values of other shapes *)

Example generate_empty_dict (py_str : pyobj -> str_outcome) (rnd : draws) :
  generate_user_agent py_str (PyDict []) rnd = Raise EmptyDataError.
Proof. reflexivity. Qed.

Example generate_browsers_string (py_str : pyobj -> str_outcome) (rnd : draws) :
  generate_user_agent_body py_str (PyDict [("browsers", PyStr "Chrome")]) rnd
    = Raise AttributeError
  /\ generate_user_agent py_str (PyDict [("browsers", PyStr "Chrome")]) rnd
    = Raise UserAgentError.
Proof. split; reflexivity. Qed.

Example generate_numeric_browser_version :
  generate_user_agent (fun _ => Text "116")
    (catalog [PyDict [("name", PyStr "Chrome"); ("versions", PyList [PyInt 116]);
                      ("os", PyList [os_entry "Linux" ["x86_64"]])]])
    first_draws
  = Ok "Mozilla/5.0 (X11; Linux x86_64) AppleWebKit/537.36 (KHTML, like Gecko) Chrome/116 Safari/537.36".
Proof. reflexivity. Qed.

Example generate_numeric_os_version (py_str : pyobj -> str_outcome) :
  generate_user_agent py_str
    (catalog [PyDict [("name", PyStr "Chrome"); ("versions", PyList [PyStr "116.0"]);
                      ("os", PyList [PyDict [("name", PyStr "Windows");
                                             ("versions", PyList [PyInt 10])]])]])
    first_draws
  = Raise UserAgentError.
Proof. reflexivity. Qed.

(** A browser version on which [str] raises, as it does on an [int] of
    more digits than the interpreter converts: the f-string of line 181
    raises, and the handler gives the generic error. *)
Example generate_version_str_raises
  (py_str : pyobj -> str_outcome) (n : Z) (class : string) (rnd : draws) :
  py_str (PyInt n) = Fails class ->
  validate_json_structure py_str
    (catalog [PyDict [("name", PyStr "Chrome"); ("versions", PyList [PyInt n]);
                      ("os", PyList [os_entry "Linux" ["x86_64"]])]])
  = Ok tt
  /\ generate_user_agent py_str
       (catalog [PyDict [("name", PyStr "Chrome"); ("versions", PyList [PyInt n]);
                         ("os", PyList [os_entry "Linux" ["x86_64"]])]])
       rnd
     = Raise UserAgentError.
Proof.
  intros H. split; [reflexivity|].
  unfold generate_user_agent, generate_user_agent_body. cbn. now rewrite H.
Qed.

Example generate_second_draws :
  generate_user_agent (fun _ => Text "") chrome_catalog
    {| browser_draw := 0; browser_version_draw := 1; os_draw := 1; os_version_draw := 1 |}
  = Ok "Mozilla/5.0 (Macintosh; Intel Mac OS X 10_15) AppleWebKit/537.36 (KHTML, like Gecko) Chrome/117.0 Safari/537.36".
Proof. reflexivity. Qed.

(** * Further properties *)

(** ** The structure validator *)

Lemma for_each_raises {A : Type} (body : A -> result unit) (l : list A) (e : exn) :
  for_each body l = Raise e -> exists a, In a l /\ body a = Raise e.
Proof.
  induction l as [|a l IH]; simpl; [discriminate|].
  destruct (body a) as [[]|e'] eqn:E; simpl.
  - intros H. destruct (IH H) as [a' [Hin Ha']]. eauto.
  - intros [= <-]. eauto.
Qed.

Lemma for_each_all {A : Type} (body : A -> result unit) (l : list A) :
  Forall (fun a => body a = Ok tt) l -> for_each body l = Ok tt.
Proof.
  induction 1 as [|a l Ha _ IH]; simpl; [reflexivity|].
  now rewrite Ha.
Qed.

Lemma format_name_raises (py_str : pyobj -> str_outcome)
  (d : list (string * pyobj)) (e : exn) :
  format_name py_str d = Raise e ->
  exists name, lookup "name" d = Some name /\ format_value py_str name = Raise e.
Proof.
  unfold format_name. destruct (lookup "name" d) as [name|]; [|discriminate].
  destruct (format_value py_str name) as [text|e'] eqn:E; simpl; [discriminate|].
  intros [= <-]. eauto.
Qed.

(** Raising [InvalidJSONFormatError] with a message that shows the
    names of the dicts [shown]. *)
Lemma message_raises (py_str : pyobj -> str_outcome)
  (d : list (string * pyobj)) (k : result unit) (names : list pyobj) (e : exn) :
  (forall name, lookup "name" d = Some name -> In name names) ->
  (forall e', k = Raise e' -> validation_error py_str names e') ->
  (_ <- format_name py_str d ;; k) = Raise e ->
  validation_error py_str names e.
Proof.
  intros Hd Hk.
  destruct (format_name py_str d) as [[]|e'] eqn:E; simpl.
  - apply Hk.
  - intros [= <-]. apply format_name_raises in E as [name [Hn Hf]].
    right. exists name. auto.
Qed.

Lemma raise_invalid (py_str : pyobj -> str_outcome) (names : list pyobj) (e : exn) :
  @Raise unit InvalidJSONFormatError = Raise e -> validation_error py_str names e.
Proof. intros [= <-]. now left. Qed.

Lemma os_names_In (os_infos : list pyobj) (o : list (string * pyobj)) (name : pyobj) :
  In (PyDict o) os_infos -> lookup "name" o = Some name ->
  In name (os_names (PyList os_infos)).
Proof.
  intros Hin Hn. unfold os_names. apply in_flat_map.
  exists (PyDict o). split; [exact Hin|]. rewrite Hn. now left.
Qed.

Lemma browser_name_In (b : list (string * pyobj)) (name : pyobj) :
  lookup "name" b = Some name -> In name (browser_names (PyDict b)).
Proof. intros Hn. unfold browser_names. rewrite Hn. now left. Qed.

Lemma validate_os_info_raises (py_str : pyobj -> str_outcome)
  (b : list (string * pyobj)) (os_infos : list pyobj) (os_info : pyobj) (e : exn) :
  lookup "os" b = Some (PyList os_infos) -> In os_info os_infos ->
  validate_os_info py_str b os_info = Raise e ->
  validation_error py_str (browser_names (PyDict b)) e.
Proof.
  intros Hos Hin.
  assert (Ho : forall o name, os_info = PyDict o -> lookup "name" o = Some name ->
                              In name (browser_names (PyDict b))).
  { intros o name -> Hn. unfold browser_names. rewrite Hos.
    apply in_or_app. right. now apply (os_names_In _ o). }
  remember (browser_names (PyDict b)) as names eqn:Hnames.
  assert (Hb : forall name, lookup "name" b = Some name -> In name names)
    by (intros name Hn; subst names; now apply browser_name_In).
  unfold validate_os_info.
  destruct os_info as [| | | | | |o];
    try (apply (message_raises py_str b); [exact Hb | apply raise_invalid]).
  destruct (has_key "name" o);
    [|apply (message_raises py_str b); [exact Hb | apply raise_invalid]].
  destruct (match lookup "versions" o with
            | Some versions => nonempty_list versions
            | None => false
            end); [discriminate|].
  apply (message_raises py_str o); [intros name; now apply Ho|].
  intros e'. apply (message_raises py_str b); [exact Hb | apply raise_invalid].
Qed.

Lemma validate_browser_raises (py_str : pyobj -> str_outcome) (browser : pyobj) (e : exn) :
  validate_browser py_str browser = Raise e ->
  validation_error py_str (browser_names browser) e.
Proof.
  destruct browser as [| | | | | |b]; try (intros [= <-]; now left).
  remember (browser_names (PyDict b)) as names eqn:Hnames.
  assert (Hb : forall name, lookup "name" b = Some name -> In name names)
    by (intros name Hn; subst names; now apply browser_name_In).
  unfold validate_browser, required_fields.
  cbn [for_each bind]. unfold has_key at 1 2 3.
  destruct (lookup "name" b) as [n|] eqn:Hn; [|intros [= <-]; now left].
  rewrite <- Hn in Hb.
  destruct (lookup "versions" b) as [versions|] eqn:Hv; [|intros [= <-]; now left].
  destruct (lookup "os" b) as [os|] eqn:Hos; [|intros [= <-]; now left].
  cbn [bind getitem]. rewrite Hv, Hos. cbn [bind].
  destruct (nonempty_list versions);
    [|apply (message_raises py_str b); [exact Hb | apply raise_invalid]].
  destruct (nonempty_list os) eqn:Eo;
    [|apply (message_raises py_str b); [exact Hb | apply raise_invalid]].
  apply nonempty_list_inv in Eo as [o [os' ->]]. cbn [bind iter].
  intros H. apply for_each_raises in H as [os_info [Hin H]].
  subst names.
  now apply (validate_os_info_raises py_str b (o :: os') os_info).
Qed.

Lemma validate_json_structure_error (py_str : pyobj -> str_outcome) (data : pyobj) (e : exn) :
  validate_json_structure py_str data = Raise e ->
  validation_error py_str (catalog_names data) e.
Proof.
  destruct data as [| | | | | |d]; try (intros [= <-]; now left).
  unfold validate_json_structure, catalog_names.
  destruct (lookup "browsers" d) as [browsers|]; [|intros [= <-]; now left].
  destruct (nonempty_list browsers) eqn:E; [|intros [= <-]; now left].
  apply nonempty_list_inv in E as [b [bs ->]]. cbn [bind iter].
  intros H. apply for_each_raises in H as [browser [Hin H]].
  apply validate_browser_raises in H as [-> | [x [Hx Hf]]]; [now left|].
  right. exists x. split; [|exact Hf].
  apply in_flat_map. eauto.
Qed.

(** X1: whatever value it is given, [validate_json_structure] either
    returns, or raises [InvalidJSONFormatError], or raises the built-in
    exception that [str] raised on the name of a browser or of an OS of
    the data while that name was put into the message (lines 50-64).
    The subscripts of lines 35, 49, 53 and 63 are all guarded, so no
    [KeyError] or [TypeError] gets out of them. *)
Theorem validate_json_structure_raises (py_str : pyobj -> str_outcome) (data : pyobj) :
  validate_json_structure py_str data = Ok tt
  \/ validate_json_structure py_str data = Raise InvalidJSONFormatError
  \/ exists x class,
       In x (catalog_names data)
       /\ py_str x = Fails class
       /\ validate_json_structure py_str data = Raise (OtherException class).
Proof.
  destruct (validate_json_structure py_str data) as [[]|e] eqn:E; [now left | right].
  apply validate_json_structure_error in E as [-> | [x [Hx Hf]]]; [now left|].
  right. exists x.
  destruct (format_value_raises py_str x e Hf) as [class ->].
  exists class. split; [exact Hx | split; [|reflexivity]].
  unfold format_value in Hf. destruct x; try discriminate;
    (destruct (py_str _) as [s|c]; [discriminate | congruence]).
Qed.

(** A browser name on which [str] raises comes out of the validator as
    that exception when the message of line 50 is built, and out of the
    loader as the generic error. *)
Example validate_name_str_raises
  (py_str : pyobj -> str_outcome) (n : Z) (class : string) :
  py_str (PyInt n) = Fails class ->
  validate_json_structure py_str
    (catalog [PyDict [("name", PyInt n); ("versions", PyList []); ("os", PyList [])]])
  = Raise (OtherException class)
  /\ load_user_agents py_str
       (single_file "ua.json"
          (json_file_of
             (catalog [PyDict [("name", PyInt n); ("versions", PyList []);
                               ("os", PyList [])]])))
       "ua.json"
     = Raise UserAgentError.
Proof.
  intros H. unfold load_user_agents, load_user_agents_body. cbn. now rewrite H.
Qed.

Lemma validate_os_info_iff (py_str : pyobj -> str_outcome)
  (b : list (string * pyobj)) (os_info : pyobj) :
  validate_os_info py_str b os_info = Ok tt <-> well_formed_os_info os_info.
Proof.
  split; [apply validate_os_info_inv|].
  intros [o [name [v [vs [-> [Hn Hv]]]]]].
  unfold validate_os_info, has_key. now rewrite Hn, Hv.
Qed.

Lemma validate_browser_iff (py_str : pyobj -> str_outcome) (browser : pyobj) :
  validate_browser py_str browser = Ok tt <-> well_formed_browser browser.
Proof.
  split.
  - intros H. apply validate_browser_inv in H
      as [b [name [v [vs [o [os [-> [Hn [Hv [Ho Hos]]]]]]]]]].
    exists b, name, v, vs, o, os.
    repeat (split; [first [reflexivity | assumption]|]).
    eapply Forall_impl; [|exact Hos]. intros x. apply validate_os_info_iff.
  - intros [b [name [v [vs [o [os [-> [Hn [Hv [Ho Hos]]]]]]]]]].
    unfold validate_browser, required_fields, has_key, getitem. simpl.
    rewrite Hn, Hv, Ho. simpl.
    change (for_each (validate_os_info py_str b) (o :: os) = Ok tt).
    apply for_each_all. eapply Forall_impl; [|exact Hos].
    intros x. apply validate_os_info_iff.
Qed.

Lemma validated_well_formed (py_str : pyobj -> str_outcome) (data : pyobj) :
  validate_json_structure py_str data = Ok tt -> well_formed_catalog data.
Proof.
  intros H. apply validate_json_structure_inv in H as [d [b [bs [-> [Hd Hall]]]]].
  exists d, b, bs. repeat (split; [first [reflexivity | assumption]|]).
  eapply Forall_impl; [|exact Hall]. intros x. apply validate_browser_iff.
Qed.

Lemma well_formed_validated (py_str : pyobj -> str_outcome) (data : pyobj) :
  well_formed_catalog data -> validate_json_structure py_str data = Ok tt.
Proof.
  intros [d [b [bs [-> [Hd Hall]]]]].
  unfold validate_json_structure. rewrite Hd. simpl.
  change (for_each (validate_browser py_str) (b :: bs) = Ok tt).
  apply for_each_all. eapply Forall_impl; [|exact Hall].
  intros x. apply validate_browser_iff.
Qed.

(** X2: [validate_json_structure] accepts a value exactly when it is a
    dict whose "browsers" is a non-empty list of dicts, each with a
    "name", a non-empty list "versions" and a non-empty list "os" of
    dicts, each of these with a "name" and a non-empty list
    "versions".  Nothing is asked of the names and of the elements of
    the version lists, and further keys are ignored. *)
Theorem validate_json_structure_iff (py_str : pyobj -> str_outcome) (data : pyobj) :
  validate_json_structure py_str data = Ok tt <-> well_formed_catalog data.
Proof.
  split; [apply validated_well_formed | apply well_formed_validated].
Qed.

(** ** The loader *)

(** X3: loading succeeds exactly when the path names a file that is
    readable, parses to a value, and the value passes
    [validate_json_structure]; what is returned is the parsed value
    itself, unchanged. *)
Theorem load_user_agents_ok_iff (py_str : pyobj -> str_outcome) (fs : filesystem) (json_file : string) (data : pyobj) :
  load_user_agents py_str fs json_file = Ok data <->
  exists f, fs json_file = Some f /\ readable f = true
            /\ json_load f = Ok data
            /\ validate_json_structure py_str data = Ok tt.
Proof.
  unfold load_user_agents, load_user_agents_body, open_and_parse. split.
  - destruct (fs json_file) as [f|]; [|discriminate].
    destruct (readable f) eqn:Hr; [|discriminate].
    destruct (json_load f) as [parsed|e] eqn:Hj; [|now destruct e].
    cbn [bind].
    destruct (validate_json_structure py_str parsed) as [[]|e] eqn:Hv; [|discriminate].
    cbn [bind try_except]. intros [= <-]. now exists f.
  - intros [f [-> [-> [-> Hv]]]]. cbn [bind]. now rewrite Hv.
Qed.

(** X4: how loading fails.  A path that names no file gives
    [FileNotFoundError]; a file whose text is not JSON
    ([json.JSONDecodeError]) gives [InvalidJSONFormatError]; any other
    built-in exception of [open] or [json.load] gives the generic
    [UserAgentError]; a parsed value of the wrong shape gives
    [InvalidJSONFormatError], or else the generic [UserAgentError] when
    [str] raises on a browser or OS name of that value while the message
    is built. *)
Theorem load_user_agents_failures (py_str : pyobj -> str_outcome) (fs : filesystem) (json_file : string) :
  (fs json_file = None ->
     load_user_agents py_str fs json_file = Raise FileNotFoundError)
  /\ (forall f e,
        fs json_file = Some f -> readable f = true -> json_load f = Raise e ->
        built_in e ->
        load_user_agents py_str fs json_file
        = Raise (match e with
                 | JSONDecodeError => InvalidJSONFormatError
                 | _ => UserAgentError
                 end))
  /\ (forall f data,
        fs json_file = Some f -> readable f = true -> json_load f = Ok data ->
        ~ well_formed_catalog data ->
        load_user_agents py_str fs json_file = Raise InvalidJSONFormatError
        \/ (exists x, In x (catalog_names data) /\ ~ formats py_str x)
           /\ load_user_agents py_str fs json_file = Raise UserAgentError).
Proof.
  unfold load_user_agents, load_user_agents_body, open_and_parse.
  split; [|split].
  - intros ->. reflexivity.
  - intros f e -> -> -> He. unfold built_in in He.
    destruct e; try discriminate; reflexivity.
  - intros f data -> -> -> Hbad. cbn [bind].
    destruct (validate_json_structure py_str data) as [[]|e] eqn:E.
    + now apply validated_well_formed in E.
    + apply validate_json_structure_error in E as [-> | [x [Hx Hf]]]; [now left|].
      right. split.
      * exists x. split; [exact Hx|]. intros [text Htext]. congruence.
      * destruct (format_value_raises py_str x e Hf) as [class ->]. reflexivity.
Qed.

Lemma load_user_agents_failures_examples :
  load_user_agents (fun _ => Text "") (fun _ => None) "user_agents.json" = Raise FileNotFoundError
  /\ load_user_agents (fun _ => Text "")
       (single_file "ua.json" {| readable := true; json_load := Raise JSONDecodeError |})
       "ua.json" = Raise InvalidJSONFormatError
  /\ load_user_agents (fun _ => Text "")
       (single_file "ua.json"
          {| readable := true; json_load := Raise (OtherException "IsADirectoryError") |})
       "ua.json" = Raise UserAgentError
  /\ load_user_agents (fun _ => Text "") (single_file "ua.json" (json_file_of (PyList []))) "ua.json"
     = Raise InvalidJSONFormatError.
Proof.
  split; [|split; [|split]].
  - apply (proj1 (load_user_agents_failures (fun _ => Text "") (fun _ => None)
                    "user_agents.json")).
    reflexivity.
  - apply (proj1 (proj2 (load_user_agents_failures _ _ "ua.json"))
             {| readable := true; json_load := Raise JSONDecodeError |} JSONDecodeError);
      reflexivity.
  - apply (proj1 (proj2 (load_user_agents_failures _ _ "ua.json"))
             {| readable := true; json_load := Raise (OtherException "IsADirectoryError") |}
             (OtherException "IsADirectoryError"));
      reflexivity.
  - destruct (proj2 (proj2 (load_user_agents_failures (fun _ => Text "")
                                 (single_file "ua.json" (json_file_of (PyList [])))
                                 "ua.json"))
                (json_file_of (PyList [])) (PyList []) eq_refl eq_refl eq_refl)
      as [H | [[x [[] _]] _]]; [|exact H].
    intros [d [b [bs [H _]]]]. discriminate.
Defined.

(** ** The selection *)

Lemma bind_ok {A B : Type} (r : result A) (k : A -> result B) (b : B) :
  bind r k = Ok b -> exists a, r = Ok a /\ k a = Ok b.
Proof. destruct r as [a|e]; simpl; [eauto | discriminate]. Qed.

Lemma ensure_ok {A : Type} (c : bool) (e : exn) (k : result A) (a : A) :
  (if c then k else Raise e) = Ok a -> c = true /\ k = Ok a.
Proof. destruct c; [auto | discriminate]. Qed.

Lemma comprehension_In (cond : pyobj -> result bool) (l kept : list pyobj) (x : pyobj) :
  comprehension cond l = Ok kept -> In x kept -> In x l /\ cond x = Ok true.
Proof.
  revert kept. induction l as [|y l IH]; simpl; intros kept H Hin.
  - injection H as <-. contradiction.
  - apply bind_ok in H as [keep [Hy H]].
    apply bind_ok in H as [rest [Hrest H]]. injection H as <-.
    destruct keep.
    + destruct Hin as [<- | Hin]; [auto|].
      destruct (IH rest Hrest Hin). auto.
    + destruct (IH rest Hrest Hin). auto.
Qed.

Lemma choice_In {A : Type} (l : list A) (r : nat) (x : A) :
  choice l r = Ok x -> In x l.
Proof.
  unfold choice.
  destruct (nth_error l (r mod List.length l)) as [a|] eqn:E; [|discriminate].
  intros [= <-]. now apply nth_error_In in E.
Qed.

Lemma choice_reaches {A : Type} (l : list A) (x : A) :
  In x l -> exists r, choice l r = Ok x.
Proof.
  intros Hin. apply In_nth_error in Hin as [r Hr].
  exists r. unfold choice.
  assert (r < List.length l) by (apply nth_error_Some; congruence).
  now rewrite Nat.mod_small, Hr.
Qed.

Lemma feasible_browser_dict (browser : pyobj) :
  feasible_browser browser = Ok true -> exists b, browser = PyDict b.
Proof. destruct browser; try discriminate. eauto. Qed.

Lemma feasible_os_info_dict (os_info : pyobj) :
  feasible_os_info os_info = Ok true -> exists o, os_info = PyDict o.
Proof. destruct os_info; try discriminate. eauto. Qed.

Lemma chars_no_dict (s : string) (d : list (string * pyobj)) : ~ In (PyDict d) (chars s).
Proof.
  induction s as [|c s IH]; simpl; [tauto|].
  intros [H | H]; [discriminate | tauto].
Qed.

Lemma keys_no_dict (items d : list (string * pyobj)) :
  ~ In (PyDict d) (map (fun kv => PyStr (fst kv)) items).
Proof.
  induction items as [|kv items IH]; simpl; [tauto|].
  intros [H | H]; [discriminate | tauto].
Qed.

(** Only a list yields dicts when iterated. *)
Lemma iter_dict_member (x : pyobj) (l : list pyobj) (d : list (string * pyobj)) :
  iter x = Ok l -> In (PyDict d) l -> x = PyList l.
Proof.
  destruct x; simpl; try discriminate; intros [= <-] Hin.
  - now apply chars_no_dict in Hin.
  - reflexivity.
  - now apply keys_no_dict in Hin.
Qed.

Lemma getitem_dict (d : list (string * pyobj)) (k : string) (v : pyobj) :
  getitem (PyDict d) k = Ok v -> lookup k d = Some v.
Proof. simpl. destruct (lookup k d); [now intros [= <-] | discriminate]. Qed.

(** X5: whatever value [generate_user_agent] is given, a combination it
    selects is taken from that value: the browser is an entry of the
    "browsers" list, the browser name and version are that entry's
    "name" and an element of its "versions", the OS is an entry of that
    browser's "os" list, and the OS name and version are that entry's
    "name" and an element of its "versions".  Names and versions of
    different entries are never mixed. *)
Theorem select_combination_sound (py_str : pyobj -> str_outcome) (data : pyobj) (rnd : draws)
  (browser_name browser_version os_name os_version : pyobj) :
  select_combination py_str data rnd
    = Ok (browser_name, browser_version, os_name, os_version) ->
  exists d browsers b versions os o os_versions,
    data = PyDict d
    /\ lookup "browsers" d = Some (PyList browsers)
    /\ In (PyDict b) browsers
    /\ lookup "name" b = Some browser_name
    /\ lookup "versions" b = Some (PyList versions)
    /\ In browser_version versions
    /\ lookup "os" b = Some (PyList os)
    /\ In (PyDict o) os
    /\ lookup "name" o = Some os_name
    /\ lookup "versions" o = Some (PyList os_versions)
    /\ In os_version os_versions.
Proof.
  unfold select_combination. intros H.
  apply ensure_ok in H as [_ H].
  destruct data as [| | | | | |d]; try discriminate.
  apply ensure_ok in H as [_ H].
  apply bind_ok in H as [browsers [Hb H]]. apply getitem_dict in Hb.
  apply ensure_ok in H as [_ H].
  apply bind_ok in H as [items [Hitems H]].
  apply bind_ok in H as [feasible [Hfeasible H]].
  apply ensure_ok in H as [_ H].
  apply bind_ok in H as [browser [Hbrowser H]].
  apply choice_In in Hbrowser.
  destruct (comprehension_In _ _ _ _ Hfeasible Hbrowser) as [Hin Hfb].
  destruct (feasible_browser_dict _ Hfb) as [b ->].
  apply (iter_dict_member _ _ _ Hitems) in Hin as Hlist. subst browsers.
  apply bind_ok in H as [bn [Hbn H]]. apply getitem_dict in Hbn.
  apply bind_ok in H as [versions [Hversions H]].
  destruct (feasible_browser_versions _ Hfb) as [v [vs Hvs]].
  rewrite Hvs in Hversions. injection Hversions as <-.
  apply getitem_dict in Hvs.
  apply bind_ok in H as [bv [Hbv H]]. apply choice_In in Hbv.
  apply bind_ok in H as [os [Hos H]]. apply getitem_dict in Hos.
  apply bind_ok in H as [os_infos [Hos_infos H]].
  apply bind_ok in H as [feasible_os [Hfeasible_os H]].
  destruct (is_empty feasible_os);
    [destruct (format_value py_str bn); discriminate|].
  apply bind_ok in H as [os_info [Hos_info H]].
  apply choice_In in Hos_info.
  destruct (comprehension_In _ _ _ _ Hfeasible_os Hos_info) as [Hin_os Hfo].
  destruct (feasible_os_info_dict _ Hfo) as [o ->].
  apply (iter_dict_member _ _ _ Hos_infos) in Hin_os as Hlist. subst os.
  apply bind_ok in H as [on [Hon H]]. apply getitem_dict in Hon.
  apply bind_ok in H as [os_versions [Hov H]].
  destruct (feasible_os_info_versions _ Hfo) as [w [ws Hws]].
  rewrite Hws in Hov. injection Hov as <-.
  apply getitem_dict in Hws.
  apply bind_ok in H as [ov [Hovc H]]. apply choice_In in Hovc.
  injection H as <- <- <- <-.
  exists d, items, b, (v :: vs), os_infos, o, (w :: ws).
  repeat (split; [first [reflexivity | assumption]|]). assumption.
Qed.

Lemma select_combination_sound_example :
  exists d browsers b versions os o os_versions,
    chrome_catalog = PyDict d
    /\ lookup "browsers" d = Some (PyList browsers)
    /\ In (PyDict b) browsers
    /\ lookup "name" b = Some (PyStr "Chrome")
    /\ lookup "versions" b = Some (PyList versions)
    /\ In (PyStr "116.0") versions
    /\ lookup "os" b = Some (PyList os)
    /\ In (PyDict o) os
    /\ lookup "name" o = Some (PyStr "Windows")
    /\ lookup "versions" o = Some (PyList os_versions)
    /\ In (PyStr "10.0") os_versions.
Proof.
  exact (select_combination_sound (fun _ => Text "") chrome_catalog first_draws
           (PyStr "Chrome") (PyStr "116.0") (PyStr "Windows") (PyStr "10.0") eq_refl).
Defined.

(** X6: on a catalog that passes [validate_json_structure] the filters
    drop nothing, and every combination the catalog holds can be
    selected: for each browser entry, each of its versions, each of its
    OS entries and each version of that OS there are draws that select
    exactly this browser name, browser version, OS name and OS
    version. *)
Theorem select_combination_complete (py_str : pyobj -> str_outcome)
  (d b o : list (string * pyobj)) (browsers versions os os_versions : list pyobj)
  (browser_name browser_version os_name os_version : pyobj) :
  validate_json_structure py_str (PyDict d) = Ok tt ->
  lookup "browsers" d = Some (PyList browsers) ->
  In (PyDict b) browsers ->
  lookup "name" b = Some browser_name ->
  lookup "versions" b = Some (PyList versions) ->
  In browser_version versions ->
  lookup "os" b = Some (PyList os) ->
  In (PyDict o) os ->
  lookup "name" o = Some os_name ->
  lookup "versions" o = Some (PyList os_versions) ->
  In os_version os_versions ->
  comprehension feasible_browser browsers = Ok browsers
  /\ comprehension feasible_os_info os = Ok os
  /\ exists rnd,
       select_combination py_str (PyDict d) rnd
       = Ok (browser_name, browser_version, os_name, os_version).
Proof.
  intros Hvalid Hd Hb Hname Hversions Hbv Hos Ho Honame Hoversions Hov.
  apply validate_json_structure_inv in Hvalid as [d' [b0 [bs [[= <-] [Hd' Hall]]]]].
  rewrite Hd in Hd'. injection Hd' as ->.
  assert (Hkeep : comprehension feasible_browser (b0 :: bs) = Ok (b0 :: bs)).
  { apply comprehension_keeps_all.
    eapply Forall_impl; [|exact Hall]. apply validated_browser_feasible. }
  rewrite Forall_forall in Hall. pose proof (Hall _ Hb) as Hvb.
  apply validate_browser_inv in Hvb
    as [b' [name [v [vs [o0 [os0 [[= <-] [_ [_ [Hos' Hos_all]]]]]]]]]].
  rewrite Hos in Hos'. injection Hos' as ->.
  assert (Hkeep_os : comprehension feasible_os_info (o0 :: os0) = Ok (o0 :: os0)).
  { apply comprehension_keeps_all.
    eapply Forall_impl; [|exact Hos_all]. apply validated_os_info_feasible. }
  split; [exact Hkeep | split; [exact Hkeep_os|]].
  destruct (choice_reaches _ _ Hb) as [r1 Hr1].
  destruct (choice_reaches _ _ Hbv) as [r2 Hr2].
  destruct (choice_reaches _ _ Ho) as [r3 Hr3].
  destruct (choice_reaches _ _ Hov) as [r4 Hr4].
  exists {| browser_draw := r1; browser_version_draw := r2;
            os_draw := r3; os_version_draw := r4 |}.
  unfold select_combination.
  rewrite (lookup_nonempty _ _ _ Hd).
  unfold has_key. cbn [getitem]. rewrite Hd. cbn [bind truthy iter].
  rewrite Hkeep. cbn [is_empty negb bind browser_draw].
  rewrite Hr1. cbn [bind getitem]. rewrite Hname, Hversions, Hos.
  cbn [bind random_choice iter browser_version_draw]. rewrite Hr2. cbn [bind].
  rewrite Hkeep_os. cbn [is_empty negb bind os_draw].
  rewrite Hr3. cbn [bind getitem]. rewrite Honame, Hoversions.
  cbn [bind random_choice os_version_draw]. rewrite Hr4. reflexivity.
Qed.

Lemma select_combination_complete_example :
  comprehension feasible_browser
    [browser_entry "Chrome" ["116.0"; "117.0"]
       [os_entry "Windows" ["10.0"; "11.0"]; os_entry "Mac OS" ["10_15_7"; "10.15"]]]
  = Ok [browser_entry "Chrome" ["116.0"; "117.0"]
          [os_entry "Windows" ["10.0"; "11.0"]; os_entry "Mac OS" ["10_15_7"; "10.15"]]]
  /\ comprehension feasible_os_info
       [os_entry "Windows" ["10.0"; "11.0"]; os_entry "Mac OS" ["10_15_7"; "10.15"]]
     = Ok [os_entry "Windows" ["10.0"; "11.0"]; os_entry "Mac OS" ["10_15_7"; "10.15"]]
  /\ exists rnd,
       select_combination (fun _ => Text "") chrome_catalog rnd
       = Ok (PyStr "Chrome", PyStr "117.0", PyStr "Mac OS", PyStr "10.15").
Proof.
  apply (select_combination_complete (fun _ => Text "")
           [("browsers", PyList
               [browser_entry "Chrome" ["116.0"; "117.0"]
                  [os_entry "Windows" ["10.0"; "11.0"];
                   os_entry "Mac OS" ["10_15_7"; "10.15"]]])]
           [("name", PyStr "Chrome");
            ("versions", PyList [PyStr "116.0"; PyStr "117.0"]);
            ("os", PyList [os_entry "Windows" ["10.0"; "11.0"];
                           os_entry "Mac OS" ["10_15_7"; "10.15"]])]
           [("name", PyStr "Mac OS");
            ("versions", PyList [PyStr "10_15_7"; PyStr "10.15"])]
           [browser_entry "Chrome" ["116.0"; "117.0"]
              [os_entry "Windows" ["10.0"; "11.0"];
               os_entry "Mac OS" ["10_15_7"; "10.15"]]]
           [PyStr "116.0"; PyStr "117.0"]
           [os_entry "Windows" ["10.0"; "11.0"]; os_entry "Mac OS" ["10_15_7"; "10.15"]]
           [PyStr "10_15_7"; PyStr "10.15"]);
    try reflexivity; simpl; auto.
Defined.

(** ** What the generator raises *)

Lemma raises_only_bind {A B : Type} (P : exn -> Prop) (r : result A) (k : A -> result B) :
  raises_only P r -> (forall a, raises_only P (k a)) -> raises_only P (bind r k).
Proof.
  intros Hr Hk e. destruct r as [a|e']; simpl.
  - apply Hk.
  - intros [= <-]. now apply Hr.
Qed.

Lemma raises_only_ensure {A : Type} (P : exn -> Prop) (c : bool) (e : exn) (k : result A) :
  P e -> raises_only P k -> raises_only P (if c then k else Raise e).
Proof. intros He Hk. destruct c; [exact Hk | now intros e' [= <-]]. Qed.

Lemma raises_only_weaken {A : Type} (P Q : exn -> Prop) (r : result A) :
  (forall e, P e -> Q e) -> raises_only P r -> raises_only Q r.
Proof. intros HPQ Hr e He. apply HPQ, Hr, He. Qed.

Lemma raises_only_ok {A : Type} (P : exn -> Prop) (a : A) : raises_only P (Ok a).
Proof. intros e. discriminate. Qed.

Lemma getitem_raises (x : pyobj) (k : string) : raises_only built_in (getitem x k).
Proof.
  intros e. destruct x; simpl; try (now intros [= <-]).
  destruct (lookup k items); [discriminate | now intros [= <-]].
Qed.

Lemma dict_get_raises (x : pyobj) (k : string) : raises_only built_in (dict_get x k).
Proof.
  intros e. destruct x; simpl; try (now intros [= <-]).
  destruct (lookup k items); discriminate.
Qed.

Lemma iter_raises (x : pyobj) : raises_only built_in (iter x).
Proof. intros e. destruct x; simpl; try discriminate; now intros [= <-]. Qed.

Lemma choice_raises {A : Type} (l : list A) (r : nat) : raises_only built_in (choice l r).
Proof.
  intros e. unfold choice.
  destruct (nth_error l (r mod List.length l)); [discriminate | now intros [= <-]].
Qed.

Lemma random_choice_raises (x : pyobj) (r : nat) : raises_only built_in (random_choice x r).
Proof.
  destruct x; simpl; try (now intros e [= <-]). apply choice_raises.
Qed.

Lemma comprehension_raises (P : exn -> Prop) (cond : pyobj -> result bool) (l : list pyobj) :
  (forall x, raises_only P (cond x)) -> raises_only P (comprehension cond l).
Proof.
  intros Hcond. induction l as [|x l IH]; simpl; [apply raises_only_ok|].
  apply raises_only_bind; [apply Hcond | intros keep].
  apply raises_only_bind; [exact IH | intros rest; apply raises_only_ok].
Qed.

Lemma feasible_browser_raises (browser : pyobj) :
  raises_only built_in (feasible_browser browser).
Proof.
  unfold feasible_browser.
  apply raises_only_bind; [apply dict_get_raises | intros os].
  destruct (truthy os); [|apply raises_only_ok].
  apply raises_only_bind; [apply dict_get_raises | intros versions].
  destruct (isinstance_list versions); [|apply raises_only_ok].
  apply raises_only_bind; [apply getitem_raises | intros v; apply raises_only_ok].
Qed.

Lemma feasible_os_info_raises (os_info : pyobj) :
  raises_only built_in (feasible_os_info os_info).
Proof.
  unfold feasible_os_info.
  apply raises_only_bind; [apply dict_get_raises | intros versions].
  destruct (truthy versions); [|apply raises_only_ok].
  apply raises_only_bind; [apply getitem_raises | intros v].
  destruct (isinstance_list v); [|apply raises_only_ok].
  apply raises_only_bind; [apply getitem_raises | intros w; apply raises_only_ok].
Qed.

Lemma raises_only_raise {A : Type} (P : exn -> Prop) (e : exn) :
  P e -> raises_only P (@Raise A e).
Proof. now intros He e' [= <-]. Qed.

Lemma format_value_built_in (py_str : pyobj -> str_outcome) (x : pyobj) :
  raises_only built_in (format_value py_str x).
Proof.
  intros e He. apply format_value_raises in He as [class ->]. reflexivity.
Qed.

Ltac selection_step :=
  first
    [ apply raises_only_ok
    | apply raises_only_raise; now left
    | match goal with
      | |- raises_only _ (if is_empty ?l then _ else _) => destruct (is_empty l)
      end
    | apply raises_only_ensure; [now left|]
    | apply raises_only_bind;
      [ apply (raises_only_weaken built_in); [now right|];
        first [ apply getitem_raises | apply iter_raises | apply choice_raises
              | apply random_choice_raises | apply format_value_built_in
              | apply comprehension_raises, feasible_browser_raises
              | apply comprehension_raises, feasible_os_info_raises ]
      | intros ? ] ].

Lemma select_combination_raises (py_str : pyobj -> str_outcome) (data : pyobj) (rnd : draws) :
  raises_only selection_error (select_combination py_str data rnd).
Proof.
  unfold select_combination.
  apply raises_only_ensure; [now left|].
  destruct data; try (intros e [= <-]; now left).
  repeat selection_step.
Qed.

Lemma format_user_agent_raises (py_str : pyobj -> str_outcome)
  (browser_name browser_version os_name os_version : pyobj) :
  raises_only (fun e => e = UserAgentError \/ built_in e)
    (format_user_agent py_str browser_name browser_version os_name os_version).
Proof.
  intros e. rewrite format_user_agent_tail.
  destruct (get_os_string os_name os_version) as [os_string|e'] eqn:E; cbn [bind].
  - destruct (template_tail py_str browser_name browser_version) as [tail|e'] eqn:Et;
      cbn [bind]; [discriminate|].
    intros [= <-]. apply template_tail_raises in Et as [[class ->] _].
    right. reflexivity.
  - intros [= <-]. left. now apply get_os_string_raises in E.
Qed.

Lemma generate_user_agent_body_raises (py_str : pyobj -> str_outcome) (data : pyobj) (rnd : draws) :
  raises_only
    (fun e => e = InvalidUserAgentError \/ e = UserAgentError \/ selection_error e)
    (generate_user_agent_body py_str data rnd).
Proof.
  unfold generate_user_agent_body.
  apply raises_only_bind.
  - eapply raises_only_weaken; [|apply select_combination_raises]. tauto.
  - intros [[[bn bv] on] ov].
    apply raises_only_bind.
    + eapply raises_only_weaken; [|apply format_user_agent_raises].
      unfold selection_error. intros e [-> | He]; tauto.
    + intros ua. apply raises_only_ensure; [tauto | apply raises_only_ok].
Qed.

(** X7: whatever value it is given and whatever is drawn,
    [generate_user_agent] either returns a string that passes
    [validate_user_agent], or raises one of [EmptyDataError],
    [InvalidUserAgentError] and the generic [UserAgentError].  It never
    raises [InvalidJSONFormatError] or [FileNotFoundError], and a
    missing key or a value of the wrong type deeper in the data comes
    out as the generic error. *)
Theorem generate_user_agent_outcomes
  (py_str : pyobj -> str_outcome) (data : pyobj) (rnd : draws) :
  (exists user_agent,
     generate_user_agent py_str data rnd = Ok user_agent
     /\ validate_user_agent user_agent = true)
  \/ generate_user_agent py_str data rnd = Raise EmptyDataError
  \/ generate_user_agent py_str data rnd = Raise InvalidUserAgentError
  \/ generate_user_agent py_str data rnd = Raise UserAgentError.
Proof.
  unfold generate_user_agent.
  destruct (generate_user_agent_body py_str data rnd) as [ua|e] eqn:E.
  - left. exists ua. split; [reflexivity|].
    unfold generate_user_agent_body in E.
    apply bind_ok in E as [[[[bn bv] on] ov] [_ E]].
    apply bind_ok in E as [ua' [_ E]].
    apply ensure_ok in E as [Hv E]. now injection E as <-.
  - right. simpl.
    destruct (generate_user_agent_body_raises py_str data rnd e E)
      as [-> | [-> | [-> | He]]]; auto.
    unfold built_in in He. unfold reraise. rewrite He. auto.
Qed.

Lemma template_tail_length (py_str : pyobj -> str_outcome)
  (browser_name browser_version : pyobj) (tail : string) :
  template_tail py_str browser_name browser_version = Ok tail ->
  17 <= String.length tail.
Proof.
  unfold template_tail.
  destruct (eq_str browser_name "Chrome");
    [|destruct (eq_str browser_name "Firefox");
      [|destruct (eq_str browser_name "Safari");
        [|destruct (eq_str browser_name "Edge")]]];
    try (destruct (format_value py_str browser_name) as [name|]; cbn [bind];
         [|discriminate]);
    (destruct (format_value py_str browser_version) as [version|]; cbn [bind];
     [|discriminate]);
    intros [= <-]; simpl; rewrite ?length_append; simpl; lia.
Qed.

Lemma no_pattern (ps : list string) (s : string) :
  existsb (fun pattern => str_in pattern s) ps = false ->
  forall p, In p ps -> ~ occurs p s.
Proof.
  intros H p Hin Hocc. apply str_in_spec in Hocc.
  assert (existsb (fun pattern => str_in pattern s) ps = true)
    by (apply existsb_exists; eauto).
  congruence.
Qed.

(** X8: when [generate_user_agent] fails with [InvalidUserAgentError], a
    combination was selected and formatted, and the formatted string
    does start with "Mozilla/5.0" and has at least 30 characters: the
    first and the third test of [validate_user_agent] never reject what
    the templates produce.  What fails is the parenthesis count, or no
    browser pattern occurs, or no OS pattern occurs. *)
Theorem generate_user_agent_invalid
  (py_str : pyobj -> str_outcome) (data : pyobj) (rnd : draws) :
  generate_user_agent py_str data rnd = Raise InvalidUserAgentError ->
  exists browser_name browser_version os_name os_version user_agent,
    select_combination py_str data rnd
      = Ok (browser_name, browser_version, os_name, os_version)
    /\ format_user_agent py_str browser_name browser_version os_name os_version
       = Ok user_agent
    /\ starts_with "Mozilla/5.0" user_agent
    /\ 30 <= String.length user_agent
    /\ (count user_agent "(" <> count user_agent ")"
        \/ (forall p, In p browser_patterns -> ~ occurs p user_agent)
        \/ (forall p, In p os_patterns -> ~ occurs p user_agent)).
Proof.
  unfold generate_user_agent. intros H.
  destruct (generate_user_agent_body py_str data rnd) as [ua|e] eqn:E;
    [discriminate|].
  simpl in H. injection H as H.
  assert (e = InvalidUserAgentError) as ->.
  { destruct (generate_user_agent_body_raises py_str data rnd e E)
      as [-> | [-> | [-> | He]]]; try reflexivity; try discriminate.
    unfold built_in in He. unfold reraise in H. rewrite He in H. discriminate. }
  clear H. unfold generate_user_agent_body in E.
  destruct (select_combination py_str data rnd) as [[[[bn bv] on] ov]|e] eqn:Hsel.
  2:{ simpl in E. injection E as ->.
      destruct (select_combination_raises py_str data rnd _ Hsel) as [H | H];
        discriminate. }
  cbn [bind] in E.
  destruct (format_user_agent py_str bn bv on ov) as [ua|e] eqn:Hfmt.
  2:{ simpl in E. injection E as ->.
      apply format_user_agent_raises in Hfmt as [H | H]; discriminate. }
  cbn [bind] in E.
  destruct (validate_user_agent ua) eqn:Hv; [discriminate|].
  exists bn, bv, on, ov, ua. split; [reflexivity | split; [exact Hfmt|]].
  rewrite format_user_agent_tail in Hfmt.
  destruct (get_os_string on ov) as [os_string|]; [|discriminate].
  cbn [bind] in Hfmt.
  destruct (template_tail py_str bn bv) as [tail|] eqn:Htail; [|discriminate].
  assert (Hua : ua = "Mozilla/5.0 (" ++ os_string ++ tail)
    by (cbn [bind] in Hfmt; congruence).
  pose proof (template_tail_length py_str bn bv tail Htail) as Hlen.
  assert (Hstart : startswith ua "Mozilla/5.0" = true) by (now rewrite Hua).
  assert (Hlong : 30 <= String.length ua).
  { rewrite Hua, !length_append. simpl. lia. }
  split; [now apply startswith_spec | split; [exact Hlong|]].
  rewrite validate_user_agent_checks, Hstart in Hv.
  apply Nat.leb_le in Hlong. rewrite Hlong in Hv.
  cbn [andb] in Hv. rewrite andb_true_r in Hv.
  apply andb_false_iff in Hv as [Hv | Hv].
  - apply andb_false_iff in Hv as [Hv | Hv].
    + left. now apply Nat.eqb_neq.
    + right. left. now apply no_pattern.
  - right. right. now apply no_pattern.
Qed.

Lemma generate_user_agent_invalid_example :
  exists browser_name browser_version os_name os_version user_agent,
    select_combination (fun _ => Text "") opera_catalog first_draws
      = Ok (browser_name, browser_version, os_name, os_version)
    /\ format_user_agent (fun _ => Text "") browser_name browser_version os_name os_version
       = Ok user_agent
    /\ starts_with "Mozilla/5.0" user_agent
    /\ 30 <= String.length user_agent
    /\ (count user_agent "(" <> count user_agent ")"
        \/ (forall p, In p browser_patterns -> ~ occurs p user_agent)
        \/ (forall p, In p os_patterns -> ~ occurs p user_agent)).
Proof.
  exact (generate_user_agent_invalid (fun _ => Text "") opera_catalog first_draws eq_refl).
Defined.

(** ** Data with nothing to select *)

(** X9: [generate_user_agent] fails with [EmptyDataError], whatever is
    drawn, when the data is falsy ([None], [0], "", [[]],
    [{}]), is not a dict, has no "browsers" key, or has a falsy
    "browsers" value. *)
Theorem generate_user_agent_empty_data
  (py_str : pyobj -> str_outcome) (data : pyobj) (rnd : draws) :
  truthy data = false
  \/ (forall d, data <> PyDict d)
  \/ (exists d, data = PyDict d
                /\ (lookup "browsers" d = None
                    \/ exists browsers, lookup "browsers" d = Some browsers
                                        /\ truthy browsers = false)) ->
  select_combination py_str data rnd = Raise EmptyDataError
  /\ generate_user_agent py_str data rnd = Raise EmptyDataError.
Proof.
  intros H.
  assert (Hsel : select_combination py_str data rnd = Raise EmptyDataError).
  { unfold select_combination.
    destruct (truthy data) eqn:Ht; [|reflexivity].
    destruct H as [H | [H | [d [-> H]]]]; [discriminate | |].
    - destruct data; try reflexivity. now destruct (H items).
    - unfold has_key. cbn [getitem].
      destruct H as [-> | [browsers [-> Hb]]]; [reflexivity|].
      cbn [bind]. now rewrite Hb. }
  split; [exact Hsel|].
  unfold generate_user_agent, generate_user_agent_body. now rewrite Hsel.
Qed.

Lemma generate_user_agent_empty_data_examples :
  generate_user_agent (fun _ => Text "") PyNone first_draws = Raise EmptyDataError
  /\ generate_user_agent (fun _ => Text "") (PyList [chrome_catalog]) first_draws
     = Raise EmptyDataError
  /\ generate_user_agent (fun _ => Text "") (PyDict [("agents", PyList [])]) first_draws
     = Raise EmptyDataError
  /\ generate_user_agent (fun _ => Text "") (catalog []) first_draws = Raise EmptyDataError.
Proof.
  split; [|split; [|split]].
  - apply (generate_user_agent_empty_data (fun _ => Text "") PyNone first_draws).
    left. reflexivity.
  - apply (generate_user_agent_empty_data (fun _ => Text "") (PyList [chrome_catalog])
             first_draws).
    right. left. discriminate.
  - apply (generate_user_agent_empty_data (fun _ => Text "")
             (PyDict [("agents", PyList [])]) first_draws).
    right. right. exists [("agents", PyList [])]. split; [reflexivity|].
    left. reflexivity.
  - apply (generate_user_agent_empty_data (fun _ => Text "") (catalog []) first_draws).
    right. right. exists [("browsers", PyList [])]. split; [reflexivity|].
    right. exists (PyList []). split; reflexivity.
Defined.

Lemma comprehension_drops_all (cond : pyobj -> result bool) (l : list pyobj) :
  Forall (fun x => cond x = Ok false) l -> comprehension cond l = Ok [].
Proof.
  induction 1 as [|x l Hx _ IH]; simpl; [reflexivity|].
  now rewrite Hx, IH.
Qed.

Lemma os_without_versions_infeasible (os_info : pyobj) :
  os_without_versions os_info -> feasible_os_info os_info = Ok false.
Proof.
  intros [o [-> Hno]]. unfold feasible_os_info, dict_get, getitem.
  destruct (lookup "versions" o) as [versions|]; [|reflexivity].
  cbn [bind].
  destruct versions as [| | | | |[|v vs]|]; cbn [truthy bind isinstance_list];
    try reflexivity.
  - now destruct b.
  - now destruct (negb (n =? 0)%Z).
  - now destruct (negb (PrimFloat.eqb x 0)).
  - now destruct (negb (s =? "")).
  - destruct Hno. eauto.
  - now destruct items.
Qed.

(** X10: the second filter.  When every browser of the "browsers" list
    is a dict with a "name" that an f-string can show, a non-empty list
    "versions" and a non-empty list "os", and every entry of every "os"
    list is a dict whose "versions" is missing or is not a non-empty
    list, then every browser is kept, every OS entry is dropped, and
    generation fails with [EmptyDataError] whatever is drawn.  The
    message of line 172 shows the name of the browser, which is why the
    name has to format. *)
Theorem generate_user_agent_no_feasible_os
  (py_str : pyobj -> str_outcome) (d : list (string * pyobj))
  (browser : pyobj) (browsers : list pyobj) (rnd : draws) :
  lookup "browsers" d = Some (PyList (browser :: browsers)) ->
  Forall (fun x => exists b name v vs o os,
            x = PyDict b /\ lookup "name" b = Some name
            /\ formats py_str name
            /\ lookup "versions" b = Some (PyList (v :: vs))
            /\ lookup "os" b = Some (PyList (o :: os))
            /\ Forall os_without_versions (o :: os))
         (browser :: browsers) ->
  comprehension feasible_browser (browser :: browsers) = Ok (browser :: browsers)
  /\ generate_user_agent py_str (PyDict d) rnd = Raise EmptyDataError.
Proof.
  intros Hd Hall.
  assert (Hkeep : comprehension feasible_browser (browser :: browsers)
                  = Ok (browser :: browsers)).
  { apply comprehension_keeps_all. eapply Forall_impl; [|exact Hall].
    intros x [b [name [v [vs [o [os [-> [_ [_ [Hv [Ho _]]]]]]]]]]].
    unfold feasible_browser, dict_get, getitem. now rewrite Ho, Hv. }
  split; [exact Hkeep|].
  unfold generate_user_agent, generate_user_agent_body, select_combination.
  rewrite (lookup_nonempty _ _ _ Hd).
  unfold has_key. cbn [getitem]. rewrite Hd. cbn [bind truthy iter].
  rewrite Hkeep. cbn [is_empty negb bind].
  destruct (choice_nonempty browser browsers (browser_draw rnd)) as [x [-> Hin]].
  rewrite Forall_forall in Hall.
  destruct (Hall x Hin)
    as [b [name [v [vs [o [os [-> [Hn [[text Htext] [Hv [Ho Hos]]]]]]]]]]].
  cbn [bind getitem]. rewrite Hn, Hv, Ho. cbn [bind random_choice iter].
  destruct (choice_nonempty v vs (browser_version_draw rnd)) as [bv [-> _]].
  cbn [bind].
  rewrite (comprehension_drops_all feasible_os_info (o :: os)).
  2:{ eapply Forall_impl; [|exact Hos]. apply os_without_versions_infeasible. }
  cbn [bind is_empty]. rewrite Htext. reflexivity.
Qed.

Lemma generate_user_agent_no_feasible_os_example :
  comprehension feasible_browser
    [browser_entry "Chrome" ["116.0"] [os_entry "Windows" []]]
  = Ok [browser_entry "Chrome" ["116.0"] [os_entry "Windows" []]]
  /\ generate_user_agent (fun _ => Text "")
       (catalog [browser_entry "Chrome" ["116.0"] [os_entry "Windows" []]])
       first_draws
     = Raise EmptyDataError.
Proof.
  apply (generate_user_agent_no_feasible_os (fun _ => Text "")
           [("browsers", PyList [browser_entry "Chrome" ["116.0"] [os_entry "Windows" []]])]).
  - reflexivity.
  - repeat constructor.
    exists [("name", PyStr "Chrome"); ("versions", PyList [PyStr "116.0"]);
            ("os", PyList [os_entry "Windows" []])],
           (PyStr "Chrome"), (PyStr "116.0"), [], (os_entry "Windows" []), [].
    split; [reflexivity | split; [reflexivity | split]].
    + exists "Chrome". reflexivity.
    + repeat (split; [reflexivity|]).
      repeat constructor.
      exists [("name", PyStr "Windows"); ("versions", PyList [])].
      split; [reflexivity|]. intros [v [vs H]]. discriminate.
Defined.

(** With a browser name on which [str] raises, the message of line 172
    is not built and the handler gives the generic error. *)
Example generate_name_str_raises
  (py_str : pyobj -> str_outcome) (n : Z) (class : string) (rnd : draws) :
  py_str (PyInt n) = Fails class ->
  generate_user_agent py_str
    (catalog [PyDict [("name", PyInt n); ("versions", PyList [PyStr "116.0"]);
                      ("os", PyList [os_entry "Windows" []])]])
    rnd
  = Raise UserAgentError.
Proof.
  intros H. unfold generate_user_agent, generate_user_agent_body. cbn. now rewrite H.
Qed.

(** ** The OS descriptor on other values *)

(** X11: [get_os_string] fails exactly when its OS name or its OS
    version is not a string, and then with the generic
    [UserAgentError] (the [TypeError] of line 99 is caught at line 113);
    on two strings it always returns. *)
Theorem get_os_string_raises_iff (os_name os_version : pyobj) (e : exn) :
  get_os_string os_name os_version = Raise e <->
  e = UserAgentError
  /\ ~ (exists n v, os_name = PyStr n /\ os_version = PyStr v).
Proof.
  split.
  - intros H. split; [now apply get_os_string_raises in H|].
    intros [n [v [-> ->]]].
    destruct (get_os_string_strings n v) as [s Hs]. congruence.
  - intros [-> Hno].
    destruct os_name as [| | | |n| |]; try reflexivity.
    destruct os_version as [| | | |v| |]; try reflexivity.
    destruct Hno. eauto.
Qed.

(** ** The entry point *)

Lemma load_user_agents_ok_valid (py_str : pyobj -> str_outcome) (fs : filesystem) (json_file : string) (data : pyobj) :
  load_user_agents py_str fs json_file = Ok data -> validate_json_structure py_str data = Ok tt.
Proof.
  unfold load_user_agents, load_user_agents_body, open_and_parse.
  destruct (fs json_file) as [f|]; [|discriminate].
  destruct (readable f); [|discriminate].
  destruct (json_load f) as [parsed|e]; [|now destruct e].
  cbn [bind].
  destruct (validate_json_structure py_str parsed) as [[]|e] eqn:Hv; [|discriminate].
  cbn [bind try_except]. now intros [= <-].
Qed.

Lemma load_user_agents_in_hierarchy (py_str : pyobj -> str_outcome) (fs : filesystem) (json_file : string) (e : exn) :
  load_user_agents py_str fs json_file = Raise e -> isinstance_UserAgentError e = true.
Proof. apply try_except_in_hierarchy. Qed.

Lemma generate_user_agent_in_hierarchy
  (py_str : pyobj -> str_outcome) (data : pyobj) (rnd : draws) (e : exn) :
  generate_user_agent py_str data rnd = Raise e -> isinstance_UserAgentError e = true.
Proof. apply try_except_in_hierarchy. Qed.

Lemma generate_user_agent_valid
  (py_str : pyobj -> str_outcome) (data : pyobj) (rnd : draws) (user_agent : string) :
  generate_user_agent py_str data rnd = Ok user_agent ->
  validate_user_agent user_agent = true.
Proof.
  unfold generate_user_agent. intros H.
  destruct (generate_user_agent_body py_str data rnd) as [ua|e] eqn:E;
    [|discriminate].
  injection H as ->. unfold generate_user_agent_body in E.
  apply bind_ok in E as [[[[bn bv] on] ov] [_ E]].
  apply bind_ok in E as [ua' [_ E]].
  apply ensure_ok in E as [Hv E]. now injection E as <-.
Qed.

(** X12: a run of [main] ends in one of two ways.  Either the catalog
    loads and a user agent is generated: then exactly that string is
    printed on standard output, it passes [validate_user_agent], nothing
    goes to the error stream and the status is 0.  Or loading or
    generation fails with an error of the [UserAgentError] hierarchy:
    then nothing is printed on standard output, one [Error: ...] line
    is written and the status is 1.  The second handler ([Unexpected
    error], line 222) is never reached by an error of the loader or of
    the generator. *)
Theorem main_outcome
  (py_str : pyobj -> str_outcome) (fs : filesystem) (argv : list string) (rnd : draws) :
  (exists data user_agent,
     load_user_agents py_str fs (json_file_argument argv) = Ok data
     /\ generate_user_agent py_str data rnd = Ok user_agent
     /\ validate_user_agent user_agent = true
     /\ main py_str fs argv rnd
        = {| stdout := [user_agent]; stderr := []; exit_status := 0 |})
  \/ (exists e,
     isinstance_UserAgentError e = true
     /\ (load_user_agents py_str fs (json_file_argument argv) = Raise e
         \/ exists data,
              load_user_agents py_str fs (json_file_argument argv) = Ok data
              /\ generate_user_agent py_str data rnd = Raise e)
     /\ main py_str fs argv rnd
        = {| stdout := []; stderr := [ErrorLine e]; exit_status := 1 |}).
Proof.
  unfold main, main_body. cbv zeta.
  destruct (load_user_agents py_str fs (json_file_argument argv)) as [data|e] eqn:Hload;
    cbn [bind].
  - destruct (generate_user_agent py_str data rnd) as [ua|e] eqn:Hgen; cbn [bind].
    + left. exists data, ua.
      repeat (split; [first [reflexivity | assumption
                            | now apply generate_user_agent_valid in Hgen]|]).
      reflexivity.
    + right. exists e.
      pose proof (generate_user_agent_in_hierarchy _ _ _ _ Hgen) as He.
      rewrite He. split; [reflexivity | split; [|reflexivity]].
      right. exists data. split; [first [reflexivity | assumption] | exact Hgen].
  - right. exists e.
    pose proof (load_user_agents_in_hierarchy _ _ _ _ Hload) as He.
    rewrite He. split; [reflexivity | split; [|reflexivity]].
    left. first [reflexivity | assumption].
Qed.

Lemma load_user_agents_error_classes (py_str : pyobj -> str_outcome) (fs : filesystem) (json_file : string) (e : exn) :
  (forall f e', fs json_file = Some f -> json_load f = Raise e' -> built_in e') ->
  load_user_agents py_str fs json_file = Raise e ->
  (e = FileNotFoundError /\ fs json_file = None)
  \/ e = InvalidJSONFormatError \/ e = UserAgentError.
Proof.
  intros Hbuilt. unfold load_user_agents, load_user_agents_body, open_and_parse.
  destruct (fs json_file) as [f|]; [|intros [= <-]; now left].
  destruct (readable f); [|intros [= <-]; auto].
  destruct (json_load f) as [data|e'] eqn:Hj.
  - cbn [bind].
    destruct (validate_json_structure py_str data) as [[]|e''] eqn:Hv; [discriminate|].
    apply validate_json_structure_error in Hv as [-> | [x [_ Hf]]].
    + intros [= <-]. auto.
    + apply format_value_raises in Hf as [class ->]. intros [= <-]. auto.
  - specialize (Hbuilt f e' eq_refl Hj). unfold built_in in Hbuilt.
    destruct e'; try discriminate; intros [= <-]; auto.
Qed.

Lemma generate_user_agent_after_validation
  (py_str : pyobj -> str_outcome) (data : pyobj) (rnd : draws) (e : exn) :
  validate_json_structure py_str data = Ok tt ->
  generate_user_agent py_str data rnd = Raise e ->
  e = InvalidUserAgentError \/ e = UserAgentError.
Proof.
  intros Hvalid.
  destruct (select_combination_validated py_str data rnd Hvalid)
    as [bn [bv [on [ov Hsel]]]].
  rewrite (generate_user_agent_selected py_str _ _ _ _ _ _ Hsel).
  destruct (get_os_string on ov) as [os_string|]; [|intros [= <-]; auto].
  destruct (template_tail py_str bn bv) as [tail|]; [|intros [= <-]; auto].
  cbv zeta. destruct (validate_user_agent _); [discriminate | intros [= <-]; auto].
Qed.

(** X13: when [open] and [json.load] raise built-in exceptions only, the
    error that [main] reports is [FileNotFoundError] (and then the path
    names no file), [InvalidJSONFormatError], [InvalidUserAgentError] or
    the generic [UserAgentError].  It is never [EmptyDataError]: a
    catalog that loads always has a combination to select. *)
Theorem main_reports
  (py_str : pyobj -> str_outcome) (fs : filesystem) (argv : list string) (rnd : draws)
  (e : exn) :
  (forall f e', fs (json_file_argument argv) = Some f ->
                json_load f = Raise e' -> built_in e') ->
  In (ErrorLine e) (stderr (main py_str fs argv rnd)) ->
  (e = FileNotFoundError /\ fs (json_file_argument argv) = None)
  \/ e = InvalidJSONFormatError
  \/ e = InvalidUserAgentError
  \/ e = UserAgentError.
Proof.
  intros Hbuilt. unfold main, main_body. cbv zeta.
  destruct (load_user_agents py_str fs (json_file_argument argv)) as [data|e0] eqn:Hload;
    cbn [bind].
  - apply load_user_agents_ok_valid in Hload.
    destruct (generate_user_agent py_str data rnd) as [ua|e0] eqn:Hgen; cbn [bind].
    + simpl. tauto.
    + pose proof (generate_user_agent_in_hierarchy _ _ _ _ Hgen) as He.
      rewrite He. simpl. intros [[= <-] | []].
      destruct (generate_user_agent_after_validation _ _ _ _ Hload Hgen); auto.
  - pose proof (load_user_agents_in_hierarchy _ _ _ _ Hload) as He.
    rewrite He. simpl. intros [[= <-] | []].
    destruct (load_user_agents_error_classes _ _ _ _ Hbuilt Hload) as [H | [H | H]];
      auto.
Qed.

Lemma main_reports_example :
  (UserAgentError = FileNotFoundError
   /\ single_file "user_agents.json" locked_file
        (json_file_argument ["AgentSmith.py"]) = None)
  \/ UserAgentError = InvalidJSONFormatError
  \/ UserAgentError = InvalidUserAgentError
  \/ UserAgentError = UserAgentError.
Proof.
  apply (main_reports (fun _ => Text "") (single_file "user_agents.json" locked_file)
           ["AgentSmith.py"] first_draws UserAgentError).
  - intros f e' [= <-] [= <-]. reflexivity.
  - left. reflexivity.
Defined.

(** ** Entries that are not dicts *)

Lemma feasible_browser_total (b : list (string * pyobj)) :
  exists keep, feasible_browser (PyDict b) = Ok keep.
Proof.
  unfold feasible_browser, dict_get, getitem.
  destruct (lookup "os" b) as [os|]; cbn [bind truthy]; [|eauto].
  destruct (truthy os); [|eauto].
  destruct (lookup "versions" b) as [versions|]; cbn [bind isinstance_list]; eauto.
  destruct (isinstance_list versions); eauto.
Qed.

Lemma feasible_browser_not_dict (x : pyobj) :
  (forall b, x <> PyDict b) -> feasible_browser x = Raise AttributeError.
Proof.
  intros H. destruct x; try reflexivity. now destruct (H items).
Qed.

Lemma comprehension_not_dict (l : list pyobj) (x : pyobj) :
  In x l -> (forall b, x <> PyDict b) ->
  comprehension feasible_browser l = Raise AttributeError.
Proof.
  intros Hin Hx. induction l as [|y l IH]; [contradiction|].
  simpl. destruct y as [| | | | | |b];
    try (now rewrite feasible_browser_not_dict by discriminate).
  destruct (feasible_browser_total b) as [keep ->]. cbn [bind].
  destruct Hin as [<- | Hin]; [now destruct (Hx b)|].
  now rewrite (IH Hin).
Qed.

(** X14: one entry of the "browsers" list that is not a dict makes
    generation fail with the generic [UserAgentError], whatever the
    other entries are and whatever is drawn: the filter of line 154
    calls [get] on every entry, and the [AttributeError] is re-raised
    as [UserAgentError].  Such an entry is not skipped the way an entry
    without OS data is. *)
Theorem generate_user_agent_entry_not_dict
  (py_str : pyobj -> str_outcome) (d : list (string * pyobj))
  (browsers : list pyobj) (x : pyobj) (rnd : draws) :
  lookup "browsers" d = Some (PyList browsers) ->
  In x browsers -> (forall b, x <> PyDict b) ->
  generate_user_agent_body py_str (PyDict d) rnd = Raise AttributeError
  /\ generate_user_agent py_str (PyDict d) rnd = Raise UserAgentError.
Proof.
  intros Hd Hin Hx.
  assert (Hbody : generate_user_agent_body py_str (PyDict d) rnd = Raise AttributeError).
  { unfold generate_user_agent_body, select_combination.
    rewrite (lookup_nonempty _ _ _ Hd).
    unfold has_key. cbn [getitem]. rewrite Hd. cbn [bind].
    destruct browsers as [|b0 bs]; [contradiction|].
    cbn [truthy iter bind].
    now rewrite (comprehension_not_dict _ _ Hin Hx). }
  split; [exact Hbody|].
  unfold generate_user_agent. now rewrite Hbody.
Qed.

Lemma generate_user_agent_entry_not_dict_example :
  generate_user_agent_body (fun _ => Text "")
    (catalog [browser_entry "Chrome" ["116.0"] [os_entry "Windows" ["10.0"]];
              PyStr "Firefox"]) first_draws
  = Raise AttributeError
  /\ generate_user_agent (fun _ => Text "")
       (catalog [browser_entry "Chrome" ["116.0"] [os_entry "Windows" ["10.0"]];
                 PyStr "Firefox"]) first_draws
     = Raise UserAgentError.
Proof.
  apply (generate_user_agent_entry_not_dict (fun _ => Text "")
           [("browsers",
             PyList [browser_entry "Chrome" ["116.0"] [os_entry "Windows" ["10.0"]];
                     PyStr "Firefox"])]
           [browser_entry "Chrome" ["116.0"] [os_entry "Windows" ["10.0"]];
            PyStr "Firefox"]
           (PyStr "Firefox")).
  - reflexivity.
  - right. left. reflexivity.
  - discriminate.
Defined.

(** ** What the generated string shows *)

Lemma occurs_append_l (p a b : string) : occurs p a -> occurs p (a ++ b).
Proof. rewrite <- !str_in_spec. apply str_in_append_l. Qed.

Lemma occurs_append_r (p a b : string) : occurs p b -> occurs p (a ++ b).
Proof. rewrite <- !str_in_spec. apply str_in_append_r. Qed.

Lemma append_empty_r (a : string) : a ++ "" = a.
Proof. induction a as [|x a IH]; simpl; [reflexivity | now rewrite IH]. Qed.

Lemma occurs_refl (p : string) : occurs p p.
Proof. exists "", "". simpl. now rewrite append_empty_r. Qed.

Lemma template_tail_shows_version
  (py_str : pyobj -> str_outcome) (browser_name browser_version : pyobj)
  (tail : string) :
  template_tail py_str browser_name browser_version = Ok tail ->
  exists version,
    format_value py_str browser_version = Ok version
    /\ occurs ("/" ++ version) tail.
Proof.
  unfold template_tail.
  destruct (eq_str browser_name "Chrome");
    [|destruct (eq_str browser_name "Firefox");
      [|destruct (eq_str browser_name "Safari");
        [|destruct (eq_str browser_name "Edge")]]];
    try (destruct (format_value py_str browser_name) as [name|]; cbn [bind];
         [|discriminate]);
    (destruct (format_value py_str browser_version) as [version|]; cbn [bind];
     [|discriminate]);
    intros H; exists version; (split; [reflexivity|]);
    match type of H with Ok ?t = _ => assert (Ht : tail = t) by congruence end;
    rewrite Ht; clear H Ht.
  - exists ") AppleWebKit/537.36 (KHTML, like Gecko) Chrome", " Safari/537.36".
    now rewrite !append_assoc.
  - exists ("; rv:" ++ version ++ ") Gecko/20100101 Firefox"), "".
    now rewrite !append_assoc, append_empty_r.
  - exists ") AppleWebKit/605.1.15 (KHTML, like Gecko) Version", " Safari/605.1.15".
    now rewrite !append_assoc.
  - exists ") AppleWebKit/537.36 (KHTML, like Gecko) Edg", "".
    now rewrite !append_assoc, append_empty_r.
  - exists (") AppleWebKit/537.36 (KHTML, like Gecko) " ++ name), "".
    now rewrite !append_assoc, append_empty_r.
Qed.

Lemma get_os_string_ok_strings (os_name os_version : pyobj) (os_string : string) :
  get_os_string os_name os_version = Ok os_string ->
  exists n v, os_name = PyStr n /\ os_version = PyStr v.
Proof.
  destruct os_name as [| | | |n| |]; try discriminate.
  destruct os_version as [| | | |v| |]; try discriminate.
  eauto.
Qed.

(** X15: a string that [generate_user_agent] returns shows what was
    selected: the OS name and OS version are strings, the result begins
    with "Mozilla/5.0 (" followed by the descriptor [get_os_string]
    gives for them, and it contains "/" followed by the text of the
    selected browser version. *)
Theorem generate_user_agent_shows_selection
  (py_str : pyobj -> str_outcome) (data : pyobj) (rnd : draws) (user_agent : string) :
  generate_user_agent py_str data rnd = Ok user_agent ->
  exists browser_name browser_version
         (os_name os_version os_string version : string),
    select_combination py_str data rnd
      = Ok (browser_name, browser_version, PyStr os_name, PyStr os_version)
    /\ get_os_string (PyStr os_name) (PyStr os_version) = Ok os_string
    /\ starts_with ("Mozilla/5.0 (" ++ os_string) user_agent
    /\ format_value py_str browser_version = Ok version
    /\ occurs ("/" ++ version) user_agent.
Proof.
  unfold generate_user_agent. intros H.
  destruct (generate_user_agent_body py_str data rnd) as [ua|e] eqn:E;
    [|discriminate].
  injection H as Hret. unfold generate_user_agent_body in E.
  apply bind_ok in E as [[[[bn bv] on] ov] [Hsel E]].
  apply bind_ok in E as [ua' [Hfmt E]].
  apply ensure_ok in E as [_ E]. injection E as E.
  rewrite format_user_agent_tail in Hfmt.
  apply bind_ok in Hfmt as [os_string [Hos Hfmt]].
  apply bind_ok in Hfmt as [tail [Htail Hfmt]].
  assert (Hua : user_agent = "Mozilla/5.0 (" ++ os_string ++ tail) by congruence.
  destruct (get_os_string_ok_strings _ _ _ Hos) as [n [v [-> ->]]].
  destruct (template_tail_shows_version _ _ _ _ Htail) as [version [Hversion Hocc]].
  exists bn, bv, n, v, os_string, version.
  split; [exact Hsel | split; [exact Hos | split; [|split; [exact Hversion|]]]];
    rewrite Hua.
  - exists tail. now rewrite append_assoc.
  - now apply occurs_append_r, occurs_append_r.
Qed.

Lemma generate_user_agent_shows_selection_example :
  exists browser_name browser_version
         (os_name os_version os_string version : string),
    select_combination (fun _ => Text "") chrome_catalog first_draws
      = Ok (browser_name, browser_version, PyStr os_name, PyStr os_version)
    /\ get_os_string (PyStr os_name) (PyStr os_version) = Ok os_string
    /\ starts_with ("Mozilla/5.0 (" ++ os_string)
         "Mozilla/5.0 (Windows NT 10.0; Win64; x64) AppleWebKit/537.36 (KHTML, like Gecko) Chrome/116.0 Safari/537.36"
    /\ format_value (fun _ => Text "") browser_version = Ok version
    /\ occurs ("/" ++ version)
         "Mozilla/5.0 (Windows NT 10.0; Win64; x64) AppleWebKit/537.36 (KHTML, like Gecko) Chrome/116.0 Safari/537.36".
Proof.
  exact (generate_user_agent_shows_selection (fun _ => Text "") chrome_catalog first_draws
           _ eq_refl).
Defined.

(** ** What the post-validator does not look at *)

Lemma startswith_append (s t p : string) :
  startswith s p = true -> startswith (s ++ t) p = true.
Proof.
  rewrite !startswith_spec. intros [u ->].
  exists (u ++ t). now rewrite append_assoc.
Qed.

(** X16: [validate_user_agent] never looks at what follows: a string it
    accepts is still accepted with any text appended in which "(" and
    ")" are equally many. *)
Theorem validate_user_agent_append (user_agent suffix : string) :
  validate_user_agent user_agent = true ->
  count suffix "(" = count suffix ")" ->
  validate_user_agent (user_agent ++ suffix) = true.
Proof.
  rewrite !validate_user_agent_checks, !andb_true_iff.
  intros [[[[Hstart Hcount] Hlen] Hb] Ho] Hsuffix.
  apply Nat.eqb_eq in Hcount. apply Nat.leb_le in Hlen.
  split; [split; [split; [split|]|]|].
  - now apply startswith_append.
  - apply Nat.eqb_eq. rewrite !count_append. lia.
  - apply Nat.leb_le. rewrite length_append. lia.
  - now apply any_pattern_append_l.
  - now apply any_pattern_append_l.
Qed.

Lemma validate_user_agent_append_example :
  validate_user_agent
    ("Mozilla/5.0 (X11; Linux x86_64) Gecko/20100101 Firefox/117.0"
     ++ " and (anything) else")
  = true.
Proof.
  apply validate_user_agent_append; reflexivity.
Defined.
